(** * Sales aggregation CLI and arithmetic helpers: a shallow embedding

    The development follows the two Python modules of the repository,
    [app/math_utils.py] and [app/sales_cli.py].  The interpreter's built-in
    objects the code relies on ([str], [float], [datetime.date], the [csv]
    module, [dict], [sorted]) are modelled first, each in a module of its
    own; the program itself comes after, in [MathUtils] and [SalesCli].

    Conventions.
    - A Python [str] is a [string]; its characters are code points below
      256, which covers every character the code inspects (separators,
      quotes, digits, signs) and the white space of that range.
    - A Python [float] is an IEEE-754 binary64 number, represented by the
      Standard Library's [spec_float] at precision 53 and maximal exponent
      1024, with round-to-nearest-even arithmetic.
    - An exception is a value of an error type; a function that may raise
      returns a sum. *)

From Stdlib Require Import ZArith NArith List String Ascii Bool Lia.
From Stdlib Require Import Permutation Sorted.
From Stdlib Require Import Floats.SpecFloat DecimalString.
Import ListNotations.

Local Open Scope string_scope.
Local Open Scope Z_scope.

(** ** Strings *)

Module PyStr.

(** [str.isspace] on one character: the white space code points below
    256 are 9-13, 28-32, 133 and 160. *)
Definition isspace (c : ascii) : bool :=
  let n := Z.of_N (N_of_ascii c) in
  ((9 <=? n) && (n <=? 13)) || ((28 <=? n) && (n <=? 32))
  || (n =? 133) || (n =? 160).

Section Strip.
Variable space : ascii -> bool.

Fixpoint lstrip_with (s : string) : string :=
  match s with
  | String c s' => if space c then lstrip_with s' else s
  | EmptyString => EmptyString
  end.

Fixpoint rstrip_with (s : string) : string :=
  match s with
  | EmptyString => EmptyString
  | String c s' =>
      match rstrip_with s' with
      | EmptyString => if space c then EmptyString else String c EmptyString
      | r => String c r
      end
  end.

Definition strip_with (s : string) : string := rstrip_with (lstrip_with s).
End Strip.

(** [s.strip()] *)
Definition strip (s : string) : string := strip_with isspace s.

(** [sep.join(l)] *)
Definition join (sep : string) (l : list string) : string :=
  String.concat sep l.

(** [not s]: the empty string is the only false one. *)
Definition is_empty (s : string) : bool :=
  match s with EmptyString => true | _ => false end.

(** [a < b] on strings: lexicographic on code points. *)
Definition ltb (a b : string) : bool := String.ltb a b.

Definition lower_char (c : ascii) : ascii :=
  let n := N_of_ascii c in
  if ((65 <=? n) && (n <=? 90))%N then ascii_of_N (n + 32) else c.

Fixpoint lower (s : string) : string :=
  match s with
  | EmptyString => EmptyString
  | String c s' => String (lower_char c) (lower s')
  end.

(** [strip_prefix p s] is the rest of [s] after [p], when [s] starts
    with [p]. *)
Fixpoint strip_prefix (p s : string) : option string :=
  match p, s with
  | EmptyString, _ => Some s
  | String a p', String b s' =>
      if Ascii.eqb a b then strip_prefix p' s' else None
  | String _ _, EmptyString => None
  end.

(** The decimal digits of a non-negative integer. *)
Definition digits (n : Z) : string :=
  NilZero.string_of_uint (N.to_uint (Z.to_N n)).

(** [n] printed on at least [w] digits, padded with zeros on the left
    (the [%0wd] conversion). *)
Fixpoint zeros (k : nat) : string :=
  match k with O => EmptyString | S k' => String "0" (zeros k') end.

Definition zero_pad (w : nat) (n : Z) : string :=
  let d := digits n in
  zeros (w - String.length d) ++ d.

End PyStr.

(** ** Floats *)

Module PyFloat.

Definition float : Type := spec_float.

Definition prec : Z := 53.
Definition emax : Z := 1024.

Definition zero : float := S754_zero false.
Definition nan : float := S754_nan.
Definition inf : float := S754_infinity false.

(** [a + b], [-a], [a / b] (for a non-zero [b]), [a == b], [a < b]. *)
Definition add (a b : float) : float := SFadd prec emax a b.
Definition neg (a : float) : float := SFopp a.
Definition div (a b : float) : float := SFdiv prec emax a b.
Definition eqb (a b : float) : bool := SFeqb a b.
Definition ltb (a b : float) : bool := SFltb a b.

Definition is_nan (a : float) : bool :=
  match a with S754_nan => true | _ => false end.

Definition is_finite (a : float) : bool :=
  match a with S754_zero _ | S754_finite _ _ _ => true | _ => false end.

(** *** [float(s)] *)

(** The white space [float] itself removes around its argument: the
    ASCII blanks 9-13 and 32, and the two blanks above 127. *)
Definition is_blank (c : ascii) : bool :=
  let n := Z.of_N (N_of_ascii c) in
  ((9 <=? n) && (n <=? 13)) || (n =? 32) || (n =? 133) || (n =? 160).

Definition is_digit (c : ascii) : bool :=
  let n := Z.of_N (N_of_ascii c) in (48 <=? n) && (n <=? 57).

Definition digit_val (c : ascii) : Z := Z.of_N (N_of_ascii c) - 48.

Definition is_underscore (c : ascii) : bool := Ascii.eqb c "_".

(** Underscores may only stand between two digits; they are removed
    before the number is read.  [prev] is the previous character, NUL at
    the start. *)
Fixpoint drop_underscores (prev : ascii) (s : string) : option string :=
  match s with
  | EmptyString => if is_underscore prev then None else Some EmptyString
  | String c s' =>
      if is_underscore c then
        if is_digit prev then drop_underscores c s' else None
      else if is_underscore prev && negb (is_digit c) then None
      else option_map (String c) (drop_underscores c s')
  end.

Definition has_underscore (s : string) : bool :=
  existsb is_underscore (list_ascii_of_string s).

Definition scan_sign (s : string) : bool * string :=
  match s with
  | String "-" s' => (true, s')
  | String "+" s' => (false, s')
  | _ => (false, s)
  end.

(** Reads a run of digits: the value accumulated, the number of digits
    read, and what follows. *)
Fixpoint scan_digits (acc n : Z) (s : string) : Z * Z * string :=
  match s with
  | String c s' =>
      if is_digit c then scan_digits (10 * acc + digit_val c) (n + 1) s'
      else (acc, n, s)
  | EmptyString => (acc, n, s)
  end.

(** The binary64 number nearest to [m * 10^e10] (ties to even), with
    sign [sg]; too large a magnitude gives an infinity, too small a zero. *)
Definition of_decimal (sg : bool) (m e10 : Z) : float :=
  match m with
  | Zpos p =>
      if 0 <=? e10 then
        binary_round prec emax sg (Z.to_pos (Zpos p * 10 ^ e10)) 0
      else
        let '(q, e', l) :=
          SFdiv_core_binary prec emax (Zpos p) 0 (10 ^ (- e10)) 0 in
        binary_round_aux prec emax sg q e' l
  | _ => S754_zero sg
  end.

(** The decimal literal at the start of [s]: sign, digits with an
    optional point, optional exponent.  [None] when there is no digit;
    otherwise the value and the unread rest. *)
Definition strtod (s : string) : option (float * string) :=
  let '(sg, s1) := scan_sign s in
  let '(m1, n1, s2) := scan_digits 0 0 s1 in
  let '(m, nfrac, s3) :=
    match s2 with
    | String "." s2' => scan_digits m1 0 s2'
    | _ => (m1, 0, s2)
    end in
  if n1 + nfrac =? 0 then None
  else
    let '(e, s4) :=
      match s3 with
      | String c s3' =>
          if Ascii.eqb c "e" || Ascii.eqb c "E" then
            let '(esg, s5) := scan_sign s3' in
            let '(ev, en, s6) := scan_digits 0 0 s5 in
            if en =? 0 then (0, s3)
            else ((if esg then - ev else ev), s6)
          else (0, s3)
      | EmptyString => (0, s3)
      end in
    Some (of_decimal sg m (e - nfrac), s4).

(** [inf], [infinity] and [nan], in any case, with an optional sign. *)
Definition parse_inf_or_nan (s : string) : option (float * string) :=
  let '(sg, s1) := scan_sign s in
  match PyStr.strip_prefix "inf" (PyStr.lower (substring 0 3 s1)) with
  | Some _ =>
      let s2 := substring 3 (String.length s1) s1 in
      match PyStr.strip_prefix "inity" (PyStr.lower (substring 0 5 s2)) with
      | Some _ =>
          Some (S754_infinity sg, substring 5 (String.length s2) s2)
      | None => Some (S754_infinity sg, s2)
      end
  | None =>
      match PyStr.strip_prefix "nan" (PyStr.lower (substring 0 3 s1)) with
      | Some _ => Some (S754_nan, substring 3 (String.length s1) s1)
      | None => None
      end
  end.

Definition parse_number (s : string) : option float :=
  match strtod s with
  | Some (x, EmptyString) => Some x
  | Some (_, String _ _) => None
  | None =>
      match parse_inf_or_nan s with
      | Some (x, EmptyString) => Some x
      | _ => None
      end
  end.

(** [float(s)] for a string [s]; [None] stands for [ValueError]. *)
Definition float_of_string (s : string) : option float :=
  let t := PyStr.strip_with is_blank s in
  if has_underscore t then
    match drop_underscores "000" t with
    | Some t' => parse_number t'
    | None => None
    end
  else parse_number t.

(** *** [format(x, ".2f")] *)

(** [n / d] rounded to the nearest integer, ties to even
    ([0 <= n], [0 < d]). *)
Definition div_round_half_even (n d : Z) : Z :=
  let q := n / d in
  match (2 * (n mod d)) ?= d with
  | Lt => q
  | Gt => q + 1
  | Eq => if Z.even q then q else q + 1
  end.

(** [m * 2^e * 100] rounded to an integer: the hundredths of the
    magnitude. *)
Definition hundredths (m : positive) (e : Z) : Z :=
  if 0 <=? e then Zpos m * 2 ^ e * 100
  else div_round_half_even (Zpos m * 100) (2 ^ (- e)).

Definition sign_str (s : bool) : string := if s then "-" else EmptyString.

Definition format_2f (x : float) : string :=
  match x with
  | S754_nan => "nan"
  | S754_infinity s => sign_str s ++ "inf"
  | S754_zero s => sign_str s ++ "0.00"
  | S754_finite s m e =>
      let h := hundredths m e in
      sign_str s ++ PyStr.digits (h / 100) ++ "."
               ++ PyStr.zero_pad 2 (h mod 100)
  end.

End PyFloat.

(** ** Dates *)

Module PyDate.

(** A [datetime.date]: a year, a month and a day. *)
Record date : Type := mkdate { year : Z; month : Z; day : Z }.

Definition eqb (a b : date) : bool :=
  (year a =? year b) && (month a =? month b) && (day a =? day b).

(** [a < b]: dates compare as the triples (year, month, day). *)
Definition ltb (a b : date) : bool :=
  (year a <? year b)
  || ((year a =? year b)
      && ((month a <? month b)
          || ((month a =? month b) && (day a <? day b)))).

(** [d.isoformat()]: [YYYY-MM-DD]. *)
Definition isoformat (d : date) : string :=
  PyStr.zero_pad 4 (year d) ++ "-" ++ PyStr.zero_pad 2 (month d)
    ++ "-" ++ PyStr.zero_pad 2 (day d).

Definition is_leap (y : Z) : bool :=
  (y mod 4 =? 0) && (negb (y mod 100 =? 0) || (y mod 400 =? 0)).

Definition days_in_month (y m : Z) : Z :=
  if m =? 2 then (if is_leap y then 29 else 28)
  else if (m =? 4) || (m =? 6) || (m =? 9) || (m =? 11) then 30
  else 31.

(** The checks of the [date] constructor. *)
Definition valid (y m d : Z) : bool :=
  (1 <=? y) && (y <=? 9999) && (1 <=? m) && (m <=? 12)
  && (1 <=? d) && (d <=? days_in_month y m).

(** Exactly [n] digits at the start of [s]: their value and the rest. *)
Fixpoint parse_digits (n : nat) (acc : Z) (s : string) : option (Z * string) :=
  match n with
  | O => Some (acc, s)
  | S n' =>
      match s with
      | String c s' =>
          if PyFloat.is_digit c
          then parse_digits n' (10 * acc + PyFloat.digit_val c) s'
          else None
      | EmptyString => None
      end
  end.

Definition expect_dash (s : string) : option string :=
  match s with
  | String "-" s' => Some s'
  | _ => None
  end.

(** [date.fromisoformat(s)] on the extended calendar form [YYYY-MM-DD],
    the form every version of the interpreter reads; [None] stands for
    [ValueError]. *)
Definition fromisoformat (s : string) : option date :=
  match parse_digits 4 0 s with
  | Some (y, s1) =>
      match expect_dash s1 with
      | Some s2 =>
          match parse_digits 2 0 s2 with
          | Some (m, s3) =>
              match expect_dash s3 with
              | Some s4 =>
                  match parse_digits 2 0 s4 with
                  | Some (d, EmptyString) =>
                      if valid y m d then Some (mkdate y m d) else None
                  | _ => None
                  end
              | None => None
              end
          | None => None
          end
      | None => None
      end
  | None => None
  end.

End PyDate.

(** ** Lists, tuples and dictionaries *)

Module PyList.

Section Sort.
Context {A K : Type}.
Variable key : A -> K.
Variable lt : K -> K -> bool.

(** [x] goes after every element that is not greater than it. *)
Fixpoint insert (x : A) (l : list A) : list A :=
  match l with
  | [] => [x]
  | y :: l' => if lt (key x) (key y) then x :: l else y :: insert x l'
  end.

(** [sorted(l, key=key)].  The built-in sort is stable and only ever uses
    [<] on the keys; insertion from the left, each element after its
    equals, is the stable sort taken here.  On keys that [<] orders
    consistently every stable sort returns the same list; on other keys (a
    NaN among floats) the built-in sort still returns a rearrangement of
    the list, and which one depends on how it merges. *)
Definition sorted (l : list A) : list A :=
  fold_left (fun acc x => insert x acc) l [].
End Sort.

(** [a < b] on 2-tuples: decided by the first components that are not
    equal. *)
Definition tuple2_ltb {A B : Type}
    (eqA ltA : A -> A -> bool) (eqB ltB : B -> B -> bool)
    (a b : A * B) : bool :=
  if eqA (fst a) (fst b) then
    if eqB (snd a) (snd b) then false else ltB (snd a) (snd b)
  else ltA (fst a) (fst b).

(** [min(l)] and [max(l)] of a non-empty list [x :: l]: the first
    smallest, the first largest. *)
Definition min_by {A : Type} (lt : A -> A -> bool) (x : A) (l : list A) : A :=
  fold_left (fun m y => if lt y m then y else m) l x.

Definition max_by {A : Type} (lt : A -> A -> bool) (x : A) (l : list A) : A :=
  fold_left (fun m y => if lt m y then y else m) l x.

(** [l[:n]] for an integer [n >= 0]. *)
Definition take {A : Type} (n : Z) (l : list A) : list A :=
  firstn (Z.to_nat n) l.

End PyList.

Module PyDict.

Section Dict.
Context {K V : Type}.
Variable keq : K -> K -> bool.

(** A dictionary keeps its keys in the order of their first insertion. *)
Definition dict : Type := list (K * V).

Definition empty : dict := [].

(** [d.get(k, default)] *)
Fixpoint get (d : dict) (k : K) (default : V) : V :=
  match d with
  | [] => default
  | (k', v) :: d' => if keq k' k then v else get d' k default
  end.

(** [d[k] = v]: an existing key keeps its place. *)
Fixpoint set (d : dict) (k : K) (v : V) : dict :=
  match d with
  | [] => [(k, v)]
  | (k', v') :: d' =>
      if keq k' k then (k', v) :: d' else (k', v') :: set d' k v
  end.

(** [d.items()] *)
Definition items (d : dict) : list (K * V) := d.
End Dict.

End PyDict.

(** ** Iterators that may raise *)

(** What a loop sees of an iterator whose [__next__] may raise: a value and
    the iterator after it, the end, or an exception. *)
Inductive iter (A E : Type) : Type :=
| StopIteration : iter A E
| Raise : E -> iter A E
| Next : A -> iter A E -> iter A E.

Arguments StopIteration {A E}.
Arguments Raise {A E} _.
Arguments Next {A E} _ _.

(** The values an iterator yields before it ends or raises. *)
Fixpoint yielded {A E : Type} (it : iter A E) : list A :=
  match it with
  | Next x rest => x :: yielded rest
  | _ => []
  end.

(** ** The [csv] module *)

Module Csv.

(** The lines of a text file opened without newline translation: a line
    ends after a line feed, a carriage return, or a carriage return and a
    line feed, and keeps its terminator. *)
Definition is_lf (c : ascii) : bool := Ascii.eqb c "010".
Definition is_cr (c : ascii) : bool := Ascii.eqb c "013".

Fixpoint readlines (s : string) : list string :=
  match s with
  | EmptyString => []
  | String c s' =>
      if is_lf c then String c EmptyString :: readlines s'
      else if is_cr c then
        match s' with
        | String c2 s'' =>
            if is_lf c2 then String c (String c2 EmptyString) :: readlines s''
            else String c EmptyString :: readlines s'
        | EmptyString => [String c EmptyString]
        end
      else
        match readlines s' with
        | [] => [String c EmptyString]
        | l :: ls => String c l :: ls
        end
  end.

(** The reader of the default (excel) dialect: comma as delimiter, the
    double quote as quote character, written twice inside a quoted field,
    no escape character, not strict.  The states are those the dialect
    can reach.  A NUL is a character like any other, as it is from
    version 3.11 of the interpreter on. *)
Inductive state : Type :=
| START_RECORD | START_FIELD | IN_FIELD
| IN_QUOTED_FIELD | QUOTE_IN_QUOTED_FIELD | EAT_CRNL.

Record parser : Type :=
  mkparser { st : state; field : string; fields : list string }.

(** [csv.Error]. *)
Inductive Error : Type :=
| FieldTooLarge
| NewlineInUnquotedField.

Definition field_limit : N := 131072.

Definition reset : parser := mkparser START_RECORD EmptyString [].

Definition set_state (p : parser) (s : state) : parser :=
  mkparser s (field p) (fields p).

Definition save_field (p : parser) : parser :=
  mkparser (st p) EmptyString (fields p ++ [field p]).

Definition add_char (p : parser) (c : ascii) : Error + parser :=
  if (field_limit <=? N.of_nat (String.length (field p)))%N
  then inl FieldTooLarge
  else inr (mkparser (st p) (field p ++ String c EmptyString) (fields p)).

Definition is_nl (c : ascii) : bool := is_lf c || is_cr c.
Definition is_delimiter (c : ascii) : bool := Ascii.eqb c ",".
Definition is_quote (c : ascii) : bool := Ascii.eqb c "034".

Definition with_state (s : state) (r : Error + parser) : Error + parser :=
  match r with
  | inr p => inr (set_state p s)
  | inl e => inl e
  end.

(** The case [START_FIELD] of the character automaton; [None] is the end
    of the line. *)
Definition start_field (p : parser) (c : option ascii) : Error + parser :=
  match c with
  | None => inr (set_state (save_field p) START_RECORD)
  | Some ch =>
      if is_nl ch then inr (set_state (save_field p) EAT_CRNL)
      else if is_quote ch then inr (set_state p IN_QUOTED_FIELD)
      else if is_delimiter ch then inr (save_field p)
      else with_state IN_FIELD (add_char p ch)
  end.

Definition process_char (p : parser) (c : option ascii) : Error + parser :=
  match st p with
  | START_RECORD =>
      match c with
      | None => inr p
      | Some ch =>
          if is_nl ch then inr (set_state p EAT_CRNL)
          else start_field (set_state p START_FIELD) c
      end
  | START_FIELD => start_field p c
  | IN_FIELD =>
      match c with
      | None => inr (set_state (save_field p) START_RECORD)
      | Some ch =>
          if is_nl ch then inr (set_state (save_field p) EAT_CRNL)
          else if is_delimiter ch
          then inr (set_state (save_field p) START_FIELD)
          else add_char p ch
      end
  | IN_QUOTED_FIELD =>
      match c with
      | None => inr p
      | Some ch =>
          if is_quote ch then inr (set_state p QUOTE_IN_QUOTED_FIELD)
          else add_char p ch
      end
  | QUOTE_IN_QUOTED_FIELD =>
      match c with
      | None => inr (set_state (save_field p) START_RECORD)
      | Some ch =>
          if is_quote ch then with_state IN_QUOTED_FIELD (add_char p ch)
          else if is_delimiter ch
          then inr (set_state (save_field p) START_FIELD)
          else if is_nl ch then inr (set_state (save_field p) EAT_CRNL)
          else with_state IN_FIELD (add_char p ch)
      end
  | EAT_CRNL =>
      match c with
      | None => inr (set_state p START_RECORD)
      | Some ch => if is_nl ch then inr p else inl NewlineInUnquotedField
      end
  end.

(** One line through the automaton, then the end-of-line mark. *)
Fixpoint feed (p : parser) (line : string) : Error + parser :=
  match line with
  | EmptyString => process_char p None
  | String c line' =>
      match process_char p (Some c) with
      | inr p' => feed p' line'
      | inl e => inl e
      end
  end.

(** A record as the reader yields it, with the reader's [line_num] at
    that moment: the number of lines read so far. *)
Record row : Type := mkrow { line_num : Z; cells : list string }.

Definition is_start_record (s : state) : bool :=
  match s with START_RECORD => true | _ => false end.

Definition is_in_quoted_field (s : state) : bool :=
  match s with IN_QUOTED_FIELD => true | _ => false end.

(** The records of the lines still to read; [p] is the automaton inside
    the current record and [n] the number of lines read. *)
Fixpoint read (p : parser) (n : Z) (lines : list string) : iter row Error :=
  match lines with
  | [] =>
      if negb (PyStr.is_empty (field p)) || is_in_quoted_field (st p)
      then Next (mkrow n (fields (save_field p))) StopIteration
      else StopIteration
  | l :: ls =>
      match feed p l with
      | inl e => Raise e
      | inr p' =>
          if is_start_record (st p')
          then Next (mkrow (n + 1) (fields p')) (read reset (n + 1) ls)
          else read p' (n + 1) ls
      end
  end.

(** [csv.reader(f)] on the text of [f]. *)
Definition reader (text : string) : iter row Error :=
  read reset 0 (readlines text).

(** *** [csv.DictReader] *)

(** The dictionary built for a record: the cells under the field names,
    then [None] under the field names the record is too short for.  (Cells
    beyond the field names go under the key [None], which no string key
    reads.) *)
Definition raw_dict : Type := @PyDict.dict string (option string).

Definition make_dict (fieldnames cells : list string) : raw_dict :=
  let d :=
    fold_left (fun d kv => PyDict.set String.eqb d (fst kv) (Some (snd kv)))
              (combine fieldnames cells) PyDict.empty in
  fold_left (fun d k => PyDict.set String.eqb d k None)
            (skipn (List.length cells) fieldnames) d.

(** [raw.get(k)] *)
Definition get (raw : raw_dict) (k : string) : option string :=
  PyDict.get String.eqb raw k None.

Definition is_blank_row (r : row) : bool :=
  match cells r with [] => true | _ => false end.

(** The data records: the reader's records without the empty ones. *)
Fixpoint dict_rows (fieldnames : list string) (it : iter row Error)
    : iter raw_dict Error :=
  match it with
  | StopIteration => StopIteration
  | Raise e => Raise e
  | Next r rest =>
      if is_blank_row r then dict_rows fieldnames rest
      else Next (make_dict fieldnames (cells r)) (dict_rows fieldnames rest)
  end.

(** *** [csv.writer] *)

(** A field is quoted when it holds a delimiter, a quote or a character
    of the line terminator; a quote inside it is written twice. *)
Definition needs_quoting (c : ascii) : bool :=
  is_delimiter c || is_quote c || is_nl c.

Fixpoint double_quotes (s : string) : string :=
  match s with
  | EmptyString => EmptyString
  | String c s' =>
      if is_quote c then String c (String c (double_quotes s'))
      else String c (double_quotes s')
  end.

Definition QUOTE : string := String "034" EmptyString.
Definition CRLF : string := String "013" (String "010" EmptyString).

Definition write_field (s : string) : string :=
  if existsb needs_quoting (list_ascii_of_string s)
  then QUOTE ++ double_quotes s ++ QUOTE
  else s.

(** [writer.writerow(fields)]: the text written.  A record made of one
    empty field is written as an empty quoted field. *)
Definition writerow (fields : list string) : string :=
  let body := PyStr.join "," (map write_field fields) in
  match fields with
  | [_] => if PyStr.is_empty body then QUOTE ++ QUOTE ++ CRLF else body ++ CRLF
  | _ => body ++ CRLF
  end.

Definition writerows (rows : list (list string)) : string :=
  String.concat EmptyString (map writerow rows).

End Csv.

(** ** [app/math_utils.py] *)

Module MathUtils.

Import PyFloat.

Inductive ZeroDivisionError : Type :=
| MkZeroDivisionError (msg : string).

Definition add (a b : float) : float := PyFloat.add a b.

(** [b == 0] compares the float with the integer zero: it holds of both
    zeros and of nothing else. *)
Definition divide (a b : float) : ZeroDivisionError + float :=
  if PyFloat.eqb b PyFloat.zero
  then inl (MkZeroDivisionError "division by zero")
  else inr (PyFloat.div a b).

End MathUtils.

(** ** [app/sales_cli.py] *)

Module SalesCli.

Import PyFloat PyDate.

Record Row : Type := mkRow { dt : date; sku : string; amount : float }.

(** The exceptions that leave [parse_rows]: the program's own
    [InputError], and the [csv.Error] of the reader, which the program
    does not catch. *)
Inductive Exn : Type :=
| InputError (msg : string)
| CsvError (e : Csv.Error).

Definition REQUIRED_COLUMNS : list string := ["date"; "sku"; "amount"].

Definition LF : string := String "010" EmptyString.

(** [str(i)] for an integer. *)
Definition str_int (i : Z) : string :=
  if i <? 0 then "-" ++ PyStr.digits (- i) else PyStr.digits i.

(** [v or s] for the empty string [s] and a value [v] that is a string or
    [None]. *)
Definition or_empty (v : option string) : string :=
  match v with
  | Some s => s
  | None => EmptyString
  end.

Section Parse.

(** [date.fromisoformat]: the set of strings it reads has grown with
    the versions of the interpreter, so the parser takes it as a
    parameter; [PyDate.fromisoformat] is the instance used to run it. *)
Variable fromisoformat : string -> option date.

(** The body of the loop of [parse_rows] for the record numbered [i]. *)
Definition parse_line (i : Z) (raw : Csv.raw_dict) : Exn + Row :=
  let dt_str := PyStr.strip (or_empty (Csv.get raw "date")) in
  let sku := PyStr.strip (or_empty (Csv.get raw "sku")) in
  let amt_str := PyStr.strip (or_empty (Csv.get raw "amount")) in
  if PyStr.is_empty sku then
    inl (InputError ("line " ++ str_int i ++ ": sku must be non-empty"))
  else
    match fromisoformat dt_str with
    | None =>
        inl (InputError ("line " ++ str_int i ++ ": invalid date '"
                           ++ dt_str ++ "' (YYYY-MM-DD)"))
    | Some dt =>
        match float_of_string amt_str with
        | None =>
            inl (InputError ("line " ++ str_int i ++ ": invalid amount '"
                               ++ amt_str ++ "'"))
        | Some amt => inr (mkRow dt sku amt)
        end
    end.

(** [for i, raw in enumerate(reader, start=i): ...], with the rows
    appended so far. *)
Fixpoint parse_loop (i : Z) (it : iter Csv.raw_dict Csv.Error)
    (rows : list Row) : Exn + list Row :=
  match it with
  | StopIteration => inr rows
  | Raise e => inl (CsvError e)
  | Next raw rest =>
      match parse_line i raw with
      | inl e => inl e
      | inr r => parse_loop (i + 1) rest (rows ++ [r])
      end
  end.

Definition missing_columns (fieldnames : list string) : list string :=
  let header := map PyStr.strip fieldnames in
  filter (fun c => negb (existsb (String.eqb c) header)) REQUIRED_COLUMNS.

(** [parse_rows(csv_path)].  [csv_path] is the path as it prints and
    [file] the text of the regular file there, [None] when there is
    none. *)
Definition parse_rows (csv_path : string) (file : option string)
    : Exn + list Row :=
  match file with
  | None => inl (InputError ("file not found: " ++ csv_path))
  | Some text =>
      if PyStr.is_empty text then inr []
      else
        match Csv.reader text with
        | StopIteration =>
            inl (InputError
              "missing header row with required columns: date, sku, amount")
        | Raise e => inl (CsvError e)
        | Next h rest =>
            let fieldnames := Csv.cells h in
            match missing_columns fieldnames with
            | [] => parse_loop 2 (Csv.dict_rows fieldnames rest) []
            | missing =>
                inl (InputError
                  ("missing required columns: "
                     ++ PyStr.join ", "
                          (PyList.sorted (fun c => c) PyStr.ltb missing)))
            end
        end
  end.

(** *** Aggregation *)

(** The loop [totals[k] = totals.get(k, 0.0) + r.amount] over the rows,
    for a key [k] computed from the row. *)
Definition accumulate {K : Type} (keq : K -> K -> bool) (key : Row -> K)
    (rows : list Row) : @PyDict.dict K float :=
  fold_left
    (fun totals r =>
       PyDict.set keq totals (key r)
         (PyFloat.add (PyDict.get keq totals (key r) PyFloat.zero) (amount r)))
    rows PyDict.empty.

(** The sort key [(-kv[1], kv[0])] and the order of such tuples. *)
Definition sku_key (kv : string * float) : float * string :=
  (PyFloat.neg (snd kv), fst kv).

Definition sku_key_ltb : float * string -> float * string -> bool :=
  PyList.tuple2_ltb PyFloat.eqb PyFloat.ltb String.eqb PyStr.ltb.

Definition aggregate_by_sku (rows : list Row) : list (string * float) :=
  let totals := accumulate String.eqb sku rows in
  PyList.sorted sku_key sku_key_ltb (PyDict.items totals).

Definition aggregate_by_date (rows : list Row) : list (date * float) :=
  let totals := accumulate PyDate.eqb dt rows in
  PyList.sorted fst PyDate.ltb (PyDict.items totals).

(** *** Formatting *)

(** [sum(r.amount for r in rows)]: the additions from left to right,
    starting from zero.  (From version 3.12 on the interpreter carries a
    compensation term along; it is zero as long as no addition rounds.) *)
Definition total (rows : list Row) : float :=
  fold_left (fun acc r => PyFloat.add acc (amount r)) rows PyFloat.zero.

Definition sku_line (kv : string * float) : string :=
  fst kv ++ "," ++ format_2f (snd kv).

Definition date_line (kv : date * float) : string :=
  isoformat (fst kv) ++ "," ++ format_2f (snd kv).

(** [by_sku[:top]] when [top is not None and top >= 0]. *)
Definition truncate {A : Type} (top : option Z) (l : list A) : list A :=
  match top with
  | Some n => if 0 <=? n then PyList.take n l else l
  | None => l
  end.

(** [lines.append(x)] *)
Definition append (lines : list string) (x : string) : list string :=
  lines ++ [x].

(** [drange]: the first and last dates, or [unknown] without rows. *)
Definition date_range (rows : list Row) : string :=
  match map dt rows with
  | [] => "unknown"
  | d :: ds =>
      isoformat (PyList.min_by PyDate.ltb d ds) ++ ".."
        ++ isoformat (PyList.max_by PyDate.ltb d ds)
  end.

(** [_format_output(rows, top=top, by_date=by_date)], statement by
    statement. *)
Definition _format_output (rows : list Row) (top : option Z)
    (by_date : bool) : string :=
  let total := total rows in
  let lines := ["TOTAL," ++ format_2f total; "BY_SKU"] in
  let by_sku := aggregate_by_sku rows in
  let by_sku := truncate top by_sku in
  let lines := fold_left (fun lines kv => append lines (sku_line kv))
                         by_sku lines in
  let lines :=
    if by_date then
      fold_left (fun lines kv => append lines (date_line kv))
                (aggregate_by_date rows) (append lines "BY_DATE")
    else lines in
  let drange := date_range rows in
  let lines := append lines ("DATE_RANGE," ++ drange) in
  PyStr.join LF lines.

(** *** The entry point *)

(** The namespace [ns] the argument parser returns. *)
Record Namespace : Type :=
  mkNamespace {
    csv_path : string;
    top : option Z;
    by_date : bool;
    out : option string
  }.

(** What a run of [main] leaves behind: the status it returns, what it
    printed on the two streams, and the file it wrote, if any, as its
    path, the rows handed to the writer and the resulting text. *)
Record Run : Type :=
  mkRun {
    status : Z;
    stdout : string;
    stderr : string;
    written : option (string * list (list string) * string)
  }.

(** [top_n = ns.top if ns.top is not None and ns.top >= 0 else None] *)
Definition top_n (ns : Namespace) : option Z :=
  match top ns with
  | Some n => if 0 <=? n then Some n else None
  | None => None
  end.

(** [by_sku] after [if top_n is not None: by_sku = by_sku[:top_n]]. *)
Definition export_pairs (ns : Namespace) (rows : list Row)
    : list (string * float) :=
  match top_n ns with
  | Some n => PyList.take n (aggregate_by_sku rows)
  | None => aggregate_by_sku rows
  end.

Definition export_rows (by_sku : list (string * float))
    : list (list string) :=
  ["sku"; "amount"] :: map (fun kv => [fst kv; format_2f (snd kv)]) by_sku.

(** [main], from the parsed arguments on.  [file] is the text of the
    file at [ns.csv_path], [None] when there is none.  A [csv.Error] is
    not caught and leaves [main] as an exception. *)
Definition main (ns : Namespace) (file : option string) : Csv.Error + Run :=
  match parse_rows (csv_path ns) file with
  | inl (InputError e) =>
      inr (mkRun 2 EmptyString ("error: " ++ e ++ LF) None)
  | inl (CsvError e) => inl e
  | inr rows =>
      let by_sku := export_pairs ns rows in
      let written :=
        match out ns with
        | Some path =>
            if PyStr.is_empty path then None
            else Some (path, export_rows by_sku,
                       Csv.writerows (export_rows by_sku))
        | None => None
        end in
      inr (mkRun 0 (_format_output rows (top_n ns) (by_date ns) ++ LF)
                 EmptyString written)
  end.

End Parse.

End SalesCli.

(** ** Vocabulary of the specification *)

Module Spec.

Import PyFloat SalesCli.

(** [sum(l)] on floats. *)
Definition sum_floats (l : list float) : float :=
  fold_left PyFloat.add l PyFloat.zero.

(** The amounts of the rows whose key is [k], in the order of the rows,
    added up from zero. *)
Definition key_total {K : Type} (keq : K -> K -> bool) (key : Row -> K)
    (rows : list Row) (k : K) : float :=
  sum_floats (map amount (filter (fun r => keq (key r) k) rows)).

Definition sku_total (rows : list Row) (s : string) : float :=
  key_total String.eqb sku rows s.

(** The place of a number on the line of floats: its class and sign, then
    its exponent, then its mantissa, so that the order of floats is the
    lexicographic order of their places. *)
Definition rank (a : float) : Z * Z * Z :=
  match a with
  | S754_zero _ => (0, 0, 0)
  | S754_infinity false => (2, 0, 0)
  | S754_infinity true => (-2, 0, 0)
  | S754_finite false m e => (1, e, Zpos m)
  | S754_finite true m e => (-1, - e, Zneg m)
  | S754_nan => (0, 0, 0)
  end.

Definition lex_lt (x y : Z * Z * Z) : Prop :=
  let '(x1, x2, x3) := x in
  let '(y1, y2, y3) := y in
  x1 < y1 \/ (x1 = y1 /\ (x2 < y2 \/ (x2 = y2 /\ x3 < y3))).

(** [a] may stand before [b] in the by-SKU table: a larger amount first,
    and of two equal amounts the smaller SKU first. *)
Definition sku_order (a b : string * float) : Prop :=
  PyFloat.ltb (snd b) (snd a) = true
  \/ (PyFloat.eqb (snd a) (snd b) = true
      /\ PyStr.ltb (fst a) (fst b) = true).

(** A by-SKU table for [rows]: one pair for each SKU of the rows, with
    the total of that SKU, in the order above. *)
Definition one_pair_per_sku (rows : list Row)
    (table : list (string * float)) : Prop :=
  NoDup (map fst table)
  /\ forall s v, In (s, v) table
                 <-> In s (map sku rows) /\ v = sku_total rows s.

Definition by_sku_table (rows : list Row)
    (table : list (string * float)) : Prop :=
  one_pair_per_sku rows table
  /\ StronglySorted sku_order table
  /\ (rows = [] -> table = []).

(** No SKU of the rows has a total that is not a number. *)
Definition totals_are_numbers (rows : list Row) : Prop :=
  forall s, In s (map sku rows) -> is_nan (sku_total rows s) = false.

(** Every amount is a finite number. *)
Definition finite_amounts (rows : list Row) : Prop :=
  forall r, In r rows -> is_finite (amount r) = true.

(** The dictionary [d] holds the totals of [rows] under their keys. *)
Definition represents {K : Type} (keq : K -> K -> bool) (key : Row -> K)
    (d : @PyDict.dict K float) (rows : list Row) : Prop :=
  NoDup (map fst d)
  /\ (forall k, In k (map fst d) <-> In k (map key rows))
  /\ (forall k, In k (map fst d) ->
                PyDict.get keq d k PyFloat.zero = key_total keq key rows k).

(** The sections of the printed block. *)
Definition total_line (rows : list Row) : string :=
  "TOTAL," ++ format_2f (total rows).

Definition by_sku_section (shown : list (string * float)) : list string :=
  map sku_line shown.

Definition by_date_section (rows : list Row) (by_date : bool) : list string :=
  if by_date then "BY_DATE" :: map date_line (aggregate_by_date rows)
  else [].

Definition date_range_line (rows : list Row) : string :=
  "DATE_RANGE," ++ date_range rows.

(** The block that shows the pairs [shown] in its BY_SKU section. *)
Definition block (rows : list Row) (shown : list (string * float))
    (by_date : bool) : string :=
  PyStr.join LF
    ([total_line rows; "BY_SKU"] ++ by_sku_section shown
       ++ by_date_section rows by_date ++ [date_range_line rows]).

(** The export row of a pair, and the line that displays an export row. *)
Definition export_row (kv : string * float) : list string :=
  [fst kv; format_2f (snd kv)].

Definition display_of_export_row (r : list string) : string :=
  match r with
  | [s; a] => s ++ "," ++ a
  | _ => EmptyString
  end.

(** The three checks on a record, in the order of the columns of the
    usage text, the fields they read and what each reports. *)
Inductive check : Type := CheckSku | CheckDate | CheckAmount.

Definition date_field (raw : Csv.raw_dict) : string :=
  PyStr.strip (or_empty (Csv.get raw "date")).

Definition sku_field (raw : Csv.raw_dict) : string :=
  PyStr.strip (or_empty (Csv.get raw "sku")).

Definition amount_field (raw : Csv.raw_dict) : string :=
  PyStr.strip (or_empty (Csv.get raw "amount")).

Definition fails (fromisoformat : string -> option PyDate.date)
    (raw : Csv.raw_dict) (c : check) : bool :=
  match c with
  | CheckSku => PyStr.is_empty (sku_field raw)
  | CheckDate =>
      match fromisoformat (date_field raw) with
      | None => true
      | Some _ => false
      end
  | CheckAmount =>
      match float_of_string (amount_field raw) with
      | None => true
      | Some _ => false
      end
  end.

Definition message (i : Z) (raw : Csv.raw_dict) (c : check) : string :=
  match c with
  | CheckSku => "line " ++ str_int i ++ ": sku must be non-empty"
  | CheckDate =>
      "line " ++ str_int i ++ ": invalid date '" ++ date_field raw
        ++ "' (YYYY-MM-DD)"
  | CheckAmount =>
      "line " ++ str_int i ++ ": invalid amount '" ++ amount_field raw ++ "'"
  end.

(** The checks a record fails, with the SKU before the date and the date
    before the amount. *)
Definition failing_checks (fromisoformat : string -> option PyDate.date)
    (raw : Csv.raw_dict) : list check :=
  filter (fails fromisoformat raw) [CheckSku; CheckDate; CheckAmount].

(** [m * 2^n] on positive numbers. *)
Definition shl (m : positive) (n : nat) : positive := Nat.iter n xO m.

(** The float nearest to [z * 2^e]. *)
Definition dyadic (e z : Z) : float := binary_normalize prec emax z e false.

(** The number of units [2^e] in a float. *)
Definition units (e : Z) (x : float) : Z :=
  match x with
  | S754_finite s m t =>
      cond_Zopp s
        (if e <=? t then Zpos m * 2 ^ (t - e) else Zpos m / 2 ^ (e - t))
  | _ => 0
  end.

Definition zsum (l : list Z) : Z := fold_right Z.add 0 l.

(** [x] is a whole number of units [2^e], small enough to be exact. *)
Definition on_grid (e : Z) (x : float) : Prop :=
  x = dyadic e (units e x) /\ Z.abs (units e x) < 2 ^ 53.

Definition abs_units (e : Z) (rows : list Row) : Z :=
  zsum (map (fun r => Z.abs (units e (amount r))) rows).

(** Every amount is a whole number of units [2^e] and the magnitudes of
    the amounts add up to less than [2^53] units: no sum of some of the
    amounts needs rounding. *)
Definition exact_amounts (e : Z) (rows : list Row) : Prop :=
  -1074 <= e <= 971
  /\ (forall r, In r rows -> on_grid e (amount r))
  /\ abs_units e rows < 2 ^ 53.

(** The three sums of the invariant on totals. *)
Definition sum_by_sku (rows : list Row) : float :=
  sum_floats (map snd (aggregate_by_sku rows)).

Definition sum_by_date (rows : list Row) : float :=
  sum_floats (map snd (aggregate_by_date rows)).

Definition sums_agree (rows : list Row) : Prop :=
  PyFloat.eqb (sum_by_sku rows) (sum_by_date rows) = true
  /\ PyFloat.eqb (sum_by_sku rows) (total rows) = true.

End Spec.

(** ** Sample inputs *)

Module Examples.

Import PyFloat PyDate SalesCli.

(** The float a literal of the source or of a file denotes. *)
Definition lit (s : string) : float :=
  match float_of_string s with
  | Some x => x
  | None => PyFloat.nan
  end.

(** The six sales of the happy path of the test suite. *)
Definition june_rows : list Row :=
  [ mkRow (mkdate 2024 6 1) "AAA" (lit "10.0");
    mkRow (mkdate 2024 6 2) "BBB" (lit "5.5");
    mkRow (mkdate 2024 6 3) "AAA" (lit "2.5");
    mkRow (mkdate 2024 6 3) "CCC" (lit "20");
    mkRow (mkdate 2024 6 5) "BBB" (lit "3");
    mkRow (mkdate 2024 6 6) "AAA" (lit "7") ].

Definition june_csv : string :=
  "date,sku,amount" ++ LF ++ "2024-06-01,AAA,10.0" ++ LF
    ++ "2024-06-02,BBB,5.5" ++ LF ++ "2024-06-03,AAA,2.5" ++ LF
    ++ "2024-06-03,CCC,20" ++ LF ++ "2024-06-05,BBB,3" ++ LF
    ++ "2024-06-06,AAA,7".

(** Two sales, the first with an amount that is not a number. *)
Definition nan_rows : list Row :=
  [ mkRow (mkdate 2024 1 1) "A" (lit "nan");
    mkRow (mkdate 2024 1 1) "B" (lit "1.0") ].

(** Three sales whose amounts cancel out, one of them too small to
    count next to the other two. *)
Definition absorbing_rows : list Row :=
  [ mkRow (mkdate 2024 1 1) "A" (lit "1e16");
    mkRow (mkdate 2024 1 1) "B" (lit "1.0");
    mkRow (mkdate 2024 1 2) "A" (lit "-1e16") ].

(** A file with a blank line between the header and a bad record. *)
Definition blank_line_csv : string :=
  "date,sku,amount" ++ LF ++ LF ++ "2024-01-01,AAA,ten".

Definition bad_amount_csv : string :=
  "date,sku,amount" ++ LF ++ "2024-01-01,AAA,ten".

Definition infinite_amount_csv : string :=
  "date,sku,amount" ++ LF ++ "2024-01-01,AAA,inf".

Definition header_only_csv : string := "date,sku,amount" ++ LF.

(** A record without SKU, with a date and an amount that do not parse. *)
Definition all_bad_raw : Csv.raw_dict :=
  Csv.make_dict ["date"; "sku"; "amount"] ["yesterday"; "  "; "ten"].

Definition good_raw : Csv.raw_dict :=
  Csv.make_dict ["date"; "sku"; "amount"] ["2024-06-01"; "AAA"; "10.0"].

(** The arguments [sales.csv --top 2 --out out.csv]. *)
Definition export_ns : Namespace :=
  mkNamespace "sales.csv" (Some 2) false (Some "out.csv").

(** The run of [main] on the six sales of June with these arguments. *)
Definition june_export_run : Run :=
  mkRun 0
    (_format_output june_rows (Some 2) false ++ LF)
    EmptyString
    (Some ("out.csv", export_rows (export_pairs export_ns june_rows),
           Csv.writerows (export_rows (export_pairs export_ns june_rows)))).

(** A header with a note column and the required ones in another order,
    and a record under it that is too short for the amount. *)
Definition shuffled_header : list string := ["sku"; "note"; "amount"; "date"].

(** A file whose header names the SKU column with blanks around it. *)
Definition padded_header_csv : string :=
  " sku ,date,amount" ++ LF ++ "AAA,2024-06-01,10.0".


End Examples.

(** ** Vocabulary for the rest of the program *)

Module Behaviour.

Import PyFloat PyDate SalesCli Spec.

(** [a] stands before [b] in the by-date table: an earlier date first. *)
Definition date_order (a b : date * float) : Prop :=
  PyDate.ltb (fst a) (fst b) = true.

(** A by-date table for [rows]: one pair for each date of the rows, with
    the amounts of that date added up from zero in the order of the rows,
    by ascending date. *)
Definition by_date_table (rows : list Row)
    (table : list (date * float)) : Prop :=
  NoDup (map fst table)
  /\ (forall d v, In (d, v) table
                  <-> In d (map dt rows)
                      /\ v = key_total PyDate.eqb dt rows d)
  /\ StronglySorted date_order table.

(** [lo] and [hi] are dates of the rows, no row is earlier than [lo] and
    none later than [hi]. *)
Definition spans (rows : list Row) (lo hi : date) : Prop :=
  In lo (map dt rows) /\ In hi (map dt rows)
  /\ forall r, In r rows ->
       PyDate.ltb (dt r) lo = false /\ PyDate.ltb hi (dt r) = false.

(** [s] has no white space at either end. *)
Definition trimmed (s : string) : Prop := PyStr.strip s = s.

(** The iterator comes to its end without raising. *)
Fixpoint ends_well {A E : Type} (it : iter A E) : Prop :=
  match it with
  | StopIteration => True
  | Raise _ => False
  | Next _ rest => ends_well rest
  end.

(** The records after the header [h] that are not blank, each as the
    dictionary the loop of [parse_rows] receives. *)
Definition data_records (h : Csv.row) (rest : iter Csv.row Csv.Error)
    : list Csv.raw_dict :=
  map (fun r => Csv.make_dict (Csv.cells h) (Csv.cells r))
      (filter (fun r => negb (Csv.is_blank_row r)) (yielded rest)).

(** The required columns the header [fieldnames] lacks, in alphabetical
    order. *)
Definition absent_columns (fieldnames : list string) : list string :=
  filter (fun c => negb (existsb (String.eqb c) (map PyStr.strip fieldnames)))
         ["amount"; "date"; "sku"].

(** A cell of a record, the empty string when the record is too short. *)
Definition cell (cells : list string) (j : nat) : string :=
  PyStr.strip (or_empty (nth_error cells j)).

End Behaviour.

(** * Properties *)

(** ** The order of floats and of strings *)

Module OrderFacts.

Import PyFloat Spec.

Lemma compare_cont_eq m n : Pos.compare_cont Eq m n = (m ?= n)%positive.
Proof. reflexivity. Qed.

Lemma ltb_rank a b :
  PyFloat.ltb a b = true
  <-> is_nan a = false /\ is_nan b = false /\ lex_lt (rank a) (rank b).
Proof.
  unfold PyFloat.ltb, SFltb.
  destruct a as [sa|sa| |sa ma ea], b as [sb|sb| |sb mb eb];
    try destruct sa; try destruct sb; simpl;
    try rewrite compare_cont_eq;
    try (destruct (Z.compare_spec ea eb));
    try (destruct (Pos.compare_spec ma mb)); simpl;
    try subst;
    split; try discriminate;
    try (intros (Hna & Hnb & Hlex); try discriminate); try (intros _);
    try (repeat split);
    try reflexivity; try lia.
Qed.

Lemma eqb_rank a b :
  PyFloat.eqb a b = true
  <-> is_nan a = false /\ is_nan b = false /\ rank a = rank b.
Proof.
  unfold PyFloat.eqb, SFeqb.
  destruct a as [sa|sa| |sa ma ea], b as [sb|sb| |sb mb eb];
    try destruct sa; try destruct sb; simpl;
    try rewrite compare_cont_eq;
    try (destruct (Z.compare_spec ea eb));
    try (destruct (Pos.compare_spec ma mb)); simpl;
    try subst;
    split; try discriminate;
    try (intros (Hna & Hnb & Hr); try discriminate; inversion Hr);
    try (intros _);
    try (repeat split);
    try reflexivity; try lia.
Qed.

Lemma is_nan_neg a : is_nan (PyFloat.neg a) = is_nan a.
Proof. now destruct a. Qed.

Lemma rank_neg a :
  rank (PyFloat.neg a)
  = (- fst (fst (rank a)), - snd (fst (rank a)), - snd (rank a)).
Proof.
  destruct a as [s|s| |s m e]; try destruct s; simpl; f_equal;
    try f_equal; lia.
Qed.

Lemma bool_ext (x y : bool) : (x = true <-> y = true) -> x = y.
Proof. destruct x, y; intuition congruence. Qed.

(** Negating both sides of a comparison turns it round. *)
Lemma ltb_neg a b :
  PyFloat.ltb (PyFloat.neg a) (PyFloat.neg b) = PyFloat.ltb b a.
Proof.
  apply bool_ext. rewrite !ltb_rank, !is_nan_neg, !rank_neg.
  destruct (rank a) as [[a1 a2] a3], (rank b) as [[b1 b2] b3].
  simpl. intuition lia.
Qed.

Lemma eqb_neg a b :
  PyFloat.eqb (PyFloat.neg a) (PyFloat.neg b) = PyFloat.eqb a b.
Proof.
  apply bool_ext. rewrite !eqb_rank, !is_nan_neg, !rank_neg.
  destruct (rank a) as [[a1 a2] a3], (rank b) as [[b1 b2] b3].
  simpl. split; intros (Ha & Hb & Hr); repeat split; trivial;
    inversion Hr; f_equal; try f_equal; lia.
Qed.

(** Two numbers are ordered one way or the other, or equal. *)
Lemma float_trichotomy a b :
  is_nan a = false -> is_nan b = false ->
  PyFloat.ltb a b = true \/ PyFloat.eqb a b = true \/ PyFloat.ltb b a = true.
Proof.
  intros Ha Hb. rewrite !ltb_rank, eqb_rank.
  destruct (rank a) as [[a1 a2] a3], (rank b) as [[b1 b2] b3]. simpl.
  assert (a1 < b1 \/ a1 = b1 \/ b1 < a1) as [?|[?|?]] by lia;
  assert (a2 < b2 \/ a2 = b2 \/ b2 < a2) as [?|[?|?]] by lia;
  assert (a3 < b3 \/ a3 = b3 \/ b3 < a3) as [?|[?|?]] by lia;
    subst; intuition.
Qed.

Lemma ltb_eqb_false a b :
  PyFloat.ltb a b = true -> PyFloat.eqb a b = false.
Proof.
  intro H. destruct (PyFloat.eqb a b) eqn:E; [|reflexivity].
  apply ltb_rank in H. apply eqb_rank in E.
  destruct H as (_ & _ & H), E as (_ & _ & E). rewrite E in H.
  destruct (rank b) as [[b1 b2] b3]. simpl in H. lia.
Qed.

(** *** Strings *)

Lemma ascii_compare_eq a b : Ascii.compare a b = Eq -> a = b.
Proof. apply Ascii.compare_eq_iff. Qed.

Lemma str_compare_trans : forall a b c,
  String.compare a b = Lt -> String.compare b c = Lt ->
  String.compare a c = Lt.
Proof.
  induction a as [|x a IH]; intros [|y b] [|z c]; simpl;
    try discriminate; trivial.
  unfold Ascii.compare.
  destruct (N.compare_spec (N_of_ascii x) (N_of_ascii y)) as [Hxy|Hxy|Hxy];
  destruct (N.compare_spec (N_of_ascii y) (N_of_ascii z)) as [Hyz|Hyz|Hyz];
  destruct (N.compare_spec (N_of_ascii x) (N_of_ascii z)) as [Hxz|Hxz|Hxz];
    try discriminate; trivial; try lia.
  apply IH.
Qed.

Lemma str_ltb_trans a b c :
  PyStr.ltb a b = true -> PyStr.ltb b c = true -> PyStr.ltb a c = true.
Proof.
  unfold PyStr.ltb, String.ltb. intros H1 H2.
  destruct (String.compare a b) eqn:E1; try discriminate.
  destruct (String.compare b c) eqn:E2; try discriminate.
  now rewrite (str_compare_trans a b c E1 E2).
Qed.

Lemma str_ltb_total a b :
  a <> b -> PyStr.ltb a b = false -> PyStr.ltb b a = true.
Proof.
  unfold PyStr.ltb, String.ltb. intros Hne H.
  rewrite String.compare_antisym.
  destruct (String.compare a b) eqn:E; simpl; trivial; try discriminate.
  apply String.compare_eq_iff in E. contradiction.
Qed.

(** *** The order of the by-SKU table *)

Lemma sku_order_trans a b c :
  sku_order a b -> sku_order b c -> sku_order a c.
Proof.
  unfold sku_order. rewrite !ltb_rank, !eqb_rank.
  intros [H1|[H1 S1]] [H2|[H2 S2]].
  - left. destruct H1 as (? & ? & H1), H2 as (? & ? & H2).
    destruct (rank (snd a)) as [[a1 a2] a3], (rank (snd b)) as [[b1 b2] b3],
             (rank (snd c)) as [[c1 c2] c3].
    simpl in *. intuition lia.
  - left. destruct H1 as (? & ? & H1), H2 as (? & ? & H2).
    rewrite <- H2. intuition.
  - left. destruct H1 as (? & ? & H1), H2 as (? & ? & H2).
    rewrite H1. intuition.
  - right. destruct H1 as (? & ? & H1), H2 as (? & ? & H2). split.
    + rewrite H1, H2. intuition.
    + now apply str_ltb_trans with (fst b).
Qed.

(** On entries that are numbers with different SKUs, the comparison of
    the sort keys decides the order of the table. *)
Lemma sku_key_ltb_order (x y : string * float) :
  is_nan (snd x) = false -> is_nan (snd y) = false -> fst x <> fst y ->
  if SalesCli.sku_key_ltb (SalesCli.sku_key x) (SalesCli.sku_key y)
  then sku_order x y else sku_order y x.
Proof.
  intros Hx Hy Hne.
  unfold SalesCli.sku_key_ltb, SalesCli.sku_key, PyList.tuple2_ltb,
    sku_order. simpl.
  rewrite eqb_neg, ltb_neg.
  destruct (PyFloat.eqb (snd x) (snd y)) eqn:E.
  - rewrite (proj2 (String.eqb_neq _ _) Hne).
    destruct (PyStr.ltb (fst x) (fst y)) eqn:S; [now right|].
    right. split.
    + apply eqb_rank in E. apply eqb_rank. intuition.
    + apply str_ltb_total; assumption.
  - destruct (PyFloat.ltb (snd y) (snd x)) eqn:L; [now left|].
    left. destruct (float_trichotomy (snd x) (snd y) Hx Hy)
      as [H|[H|H]]; congruence.
Qed.

End OrderFacts.

(** ** Rounding never yields a NaN *)

Module RoundFacts.

Import PyFloat.

Lemma iter_pos_invariant {A : Type} (P : A -> Prop) (f : A -> A) :
  (forall x, P x -> P (f x)) ->
  forall p x, P x -> P (iter_pos f p x).
Proof.
  intro Hf. induction p as [p IH|p IH|]; intros x Hx; simpl; auto.
Qed.

Lemma shr_1_nonneg mrs : 0 <= shr_m mrs -> 0 <= shr_m (shr_1 mrs).
Proof.
  destruct mrs as [m r s]. simpl.
  destruct m as [|[p|p|]|[p|p|]]; simpl; lia.
Qed.

Lemma shr_nonneg mrs e n :
  0 <= shr_m mrs -> 0 <= shr_m (fst (shr mrs e n)).
Proof.
  intro H. destruct n as [|p|p]; simpl; trivial.
  apply (iter_pos_invariant (fun x => 0 <= shr_m x)); trivial.
  apply shr_1_nonneg.
Qed.

Lemma shr_record_of_loc_m m l : shr_m (shr_record_of_loc m l) = m.
Proof. destruct l as [|[]]; reflexivity. Qed.

Lemma shr_fexp_nonneg m e l :
  0 <= m -> 0 <= shr_m (fst (shr_fexp prec emax m e l)).
Proof.
  intro H. unfold shr_fexp. apply shr_nonneg.
  now rewrite shr_record_of_loc_m.
Qed.

Lemma round_nearest_even_nonneg m l :
  0 <= m -> 0 <= round_nearest_even m l.
Proof.
  intro H. destruct l as [|[]]; simpl; try lia.
  destruct (Z.even m); lia.
Qed.

Lemma binary_round_aux_not_nan s m e l :
  0 <= m -> is_nan (binary_round_aux prec emax s m e l) = false.
Proof.
  intro H. unfold binary_round_aux.
  pose proof (shr_fexp_nonneg m e l H) as H1.
  destruct (shr_fexp prec emax m e l) as [mrs' e']. simpl in H1.
  pose proof (shr_fexp_nonneg _ e' loc_Exact
                (round_nearest_even_nonneg _ (loc_of_shr_record mrs') H1))
    as H2.
  destruct (shr_fexp prec emax _ e' loc_Exact) as [mrs'' e'']. simpl in H2.
  destruct (shr_m mrs'') as [|p|p]; simpl; trivial; [|lia].
  now destruct (_ <=? _).
Qed.

Lemma binary_round_not_nan s m e :
  is_nan (binary_round prec emax s m e) = false.
Proof.
  unfold binary_round.
  destruct (shl_align m e _) as [mz ez].
  now apply binary_round_aux_not_nan.
Qed.

Lemma binary_normalize_not_nan m e s :
  is_nan (binary_normalize prec emax m e s) = false.
Proof.
  destruct m; simpl; trivial; apply binary_round_not_nan.
Qed.

(** Adding a finite number to a number gives a number. *)
Lemma add_finite_not_nan a b :
  is_nan a = false -> is_finite b = true ->
  is_nan (PyFloat.add a b) = false.
Proof.
  unfold PyFloat.add.
  destruct a as [sa|sa| |sa ma ea], b as [sb|sb| |sb mb eb];
    try discriminate; intros _ _;
    try (destruct sa, sb; reflexivity); try reflexivity.
  cbn [SFadd]. apply binary_normalize_not_nan.
Qed.

End RoundFacts.

(** ** Additions that do not round *)

Module ExactFacts.

Import PyFloat Spec.

Lemma iter_pos_nat {A : Type} (f : A -> A) p : forall x,
  iter_pos f p x = Nat.iter (Pos.to_nat p) f x.
Proof.
  induction p as [p IH|p IH|]; intro x; simpl iter_pos.
  - rewrite !IH, Pos2Nat.inj_xI, <- Nat.iter_add, <- Nat.iter_succ_r.
    f_equal. lia.
  - rewrite !IH, Pos2Nat.inj_xO, <- Nat.iter_add. f_equal. lia.
  - reflexivity.
Qed.

Lemma pos_iter_nat {A : Type} (f : A -> A) p : forall x,
  Pos.iter f x p = Nat.iter (Pos.to_nat p) f x.
Proof.
  induction p as [|p IH] using Pos.peano_ind; intro x.
  - reflexivity.
  - now rewrite Pos.iter_succ, Pos2Nat.inj_succ, IH.
Qed.

Lemma shl_add m j k : shl (shl m j) k = shl m (k + j).
Proof. unfold shl. now rewrite Nat.iter_add. Qed.

Lemma shl_value m n : Zpos (shl m n) = Zpos m * 2 ^ Z.of_nat n.
Proof.
  induction n as [|n IH].
  - simpl. lia.
  - unfold shl in *. rewrite Nat.iter_succ, Pos2Z.inj_xO, IH.
    rewrite Nat2Z.inj_succ, Z.pow_succ_r by lia. lia.
Qed.

Lemma shl_digits m n :
  Zpos (digits2_pos (shl m n)) = Zpos (digits2_pos m) + Z.of_nat n.
Proof.
  induction n as [|n IH].
  - simpl. lia.
  - unfold shl in *. rewrite Nat.iter_succ. simpl digits2_pos.
    rewrite Pos2Z.inj_succ, IH. lia.
Qed.

(** Shifting out zeros loses nothing. *)
Lemma shr_shl m n :
  Nat.iter n shr_1 (Build_shr_record (Zpos (shl m n)) false false)
  = Build_shr_record (Zpos m) false false.
Proof.
  induction n as [|n IH].
  - reflexivity.
  - rewrite Nat.iter_succ_r. unfold shl in *. rewrite Nat.iter_succ.
    simpl shr_1. exact IH.
Qed.

Lemma digits_lower_bound m : 2 ^ (Zpos (digits2_pos m) - 1) <= Zpos m.
Proof.
  induction m as [m IH|m IH|]; simpl digits2_pos.
  - rewrite Pos2Z.inj_succ.
    replace (Z.succ (Zpos (digits2_pos m)) - 1)
      with (Z.succ (Zpos (digits2_pos m) - 1)) by lia.
    rewrite Z.pow_succ_r by lia. lia.
  - rewrite Pos2Z.inj_succ.
    replace (Z.succ (Zpos (digits2_pos m)) - 1)
      with (Z.succ (Zpos (digits2_pos m) - 1)) by lia.
    rewrite Z.pow_succ_r by lia. lia.
  - simpl. lia.
Qed.

Lemma digits_upper_bound m n :
  0 <= n -> Zpos m < 2 ^ n -> Zpos (digits2_pos m) <= n.
Proof.
  intros Hn Hm. pose proof (digits_lower_bound m) as Hl.
  destruct (Z_le_gt_dec (Zpos (digits2_pos m)) n) as [|Hgt]; trivial.
  assert (2 ^ n <= 2 ^ (Zpos (digits2_pos m) - 1))
    by (apply Z.pow_le_mono_r; lia).
  lia.
Qed.

(** A mantissa that carries [n] zeros below the exponent [t] it is
    canonical at loses them without rounding. *)
Lemma shr_fexp_exact mz t n :
  fexp prec emax (Zpos (digits2_pos mz) + t) = t ->
  shr_fexp prec emax (Zpos (shl mz n)) (t - Z.of_nat n) loc_Exact
  = (Build_shr_record (Zpos mz) false false, t).
Proof.
  intro Hfexp. unfold shr_fexp. simpl Zdigits2. rewrite shl_digits.
  replace (Zpos (digits2_pos mz) + Z.of_nat n + (t - Z.of_nat n))
    with (Zpos (digits2_pos mz) + t) by lia.
  rewrite Hfexp.
  replace (t - (t - Z.of_nat n)) with (Z.of_nat n) by lia.
  destruct n as [|n].
  - simpl. f_equal. lia.
  - simpl Z.of_nat. unfold shr. rewrite iter_pos_nat, SuccNat2Pos.id_succ.
    change (shr_record_of_loc (Zpos (shl mz (S n))) loc_Exact)
      with (Build_shr_record (Zpos (shl mz (S n))) false false).
    rewrite shr_shl. f_equal. lia.
Qed.

Lemma binary_round_aux_exact s mz t n :
  fexp prec emax (Zpos (digits2_pos mz) + t) = t ->
  t <= 971 ->
  binary_round_aux prec emax s (Zpos (shl mz n)) (t - Z.of_nat n) loc_Exact
  = S754_finite s mz t.
Proof.
  intros Hfexp Ht. unfold binary_round_aux.
  rewrite (shr_fexp_exact mz t n Hfexp). simpl.
  pose proof (shr_fexp_exact mz t 0 Hfexp) as H0.
  simpl in H0. rewrite Z.sub_0_r in H0. rewrite H0. simpl.
  now rewrite (proj2 (Z.leb_le t 971) Ht).
Qed.

(** The exponent of a number of at most 53 digits, in units [2^e]. *)
Lemma fexp_le d e :
  1 <= d <= 53 -> -1074 <= e ->
  fexp prec emax (d + e) <= e /\ -1074 <= fexp prec emax (d + e).
Proof. unfold fexp, emin, prec, emax. lia. Qed.

Lemma shl_align_value m e t :
  t <= e ->
  shl_align m e t = (shl m (Z.to_nat (e - t)), t)
  \/ (t = e /\ shl_align m e t = (m, e)).
Proof.
  intro H. unfold shl_align.
  destruct (t - e) as [|p|p] eqn:E.
  - right. split; [lia|reflexivity].
  - lia.
  - left. rewrite pos_iter_nat. unfold shl. do 2 f_equal. lia.
Qed.

(** Rounding [m * 2^k] at the exponent [e - k], for [m] of at most 53
    digits: the canonical float of [m * 2^e], with nothing lost. *)
Lemma binary_round_scaled s m k e :
  Zpos (digits2_pos m) <= 53 -> -1074 <= e <= 971 ->
  let t := fexp prec emax (Zpos (digits2_pos m) + e) in
  binary_round prec emax s (shl m k) (e - Z.of_nat k)
  = S754_finite s (shl m (Z.to_nat (e - t))) t.
Proof.
  intros Hd He t.
  assert (Hdpos : 1 <= Zpos (digits2_pos m)) by lia.
  destruct (fexp_le (Zpos (digits2_pos m)) e (conj Hdpos Hd) (proj1 He))
    as [Hte Htl]. fold t in Hte, Htl.
  assert (Hcanon : fexp prec emax
                     (Zpos (digits2_pos (shl m (Z.to_nat (e - t)))) + t) = t).
  { rewrite shl_digits, Z2Nat.id by lia.
    replace (Zpos (digits2_pos m) + (e - t) + t)
      with (Zpos (digits2_pos m) + e) by lia.
    reflexivity. }
  unfold binary_round. rewrite shl_digits.
  replace (Zpos (digits2_pos m) + Z.of_nat k + (e - Z.of_nat k))
    with (Zpos (digits2_pos m) + e) by lia.
  fold t. unfold shl_align.
  destruct (t - (e - Z.of_nat k)) as [|p|p] eqn:E.
  - replace (shl m k) with (shl (shl m (Z.to_nat (e - t))) 0)
      by (simpl; f_equal; lia).
    replace (e - Z.of_nat k) with (t - Z.of_nat 0) by (simpl; lia).
    apply binary_round_aux_exact; [assumption|lia].
  - replace (shl m k)
      with (shl (shl m (Z.to_nat (e - t))) (Pos.to_nat p))
      by (rewrite shl_add; f_equal; lia).
    replace (e - Z.of_nat k) with (t - Z.of_nat (Pos.to_nat p)) by lia.
    apply binary_round_aux_exact; [assumption|lia].
  - rewrite pos_iter_nat. fold (shl (shl m k) (Pos.to_nat p)).
    rewrite shl_add.
    replace (Pos.to_nat p + k)%nat with (Z.to_nat (e - t)) by lia.
    assert (Ht : t <= 971) by lia.
    pose proof (binary_round_aux_exact s _ t 0 Hcanon Ht) as H.
    simpl in H. rewrite Z.sub_0_r in H. exact H.
Qed.

Lemma binary_round_unscaled s m e :
  Zpos (digits2_pos m) <= 53 -> -1074 <= e <= 971 ->
  let t := fexp prec emax (Zpos (digits2_pos m) + e) in
  binary_round prec emax s m e
  = S754_finite s (shl m (Z.to_nat (e - t))) t.
Proof.
  intros Hd He. pose proof (binary_round_scaled s m 0 e Hd He) as H.
  simpl in H. rewrite Z.sub_0_r in H. exact H.
Qed.

(** Rounding does not see how a mantissa of at most 53 digits is split
    between mantissa and exponent. *)
Lemma binary_round_rescale s m k e :
  Zpos (digits2_pos m) <= 53 -> -1074 <= e <= 971 ->
  binary_round prec emax s (shl m k) (e - Z.of_nat k)
  = binary_round prec emax s m e.
Proof.
  intros Hd He.
  now rewrite binary_round_scaled, binary_round_unscaled.
Qed.

Lemma binary_normalize_rescale c k e :
  Z.abs c < 2 ^ 53 -> -1074 <= e <= 971 ->
  binary_normalize prec emax (c * 2 ^ Z.of_nat k) (e - Z.of_nat k) false
  = dyadic e c.
Proof.
  intros Hc He. unfold dyadic. destruct c as [|p|p].
  - reflexivity.
  - rewrite <- shl_value. simpl binary_normalize.
    apply binary_round_rescale; trivial.
    apply digits_upper_bound; lia.
  - replace (Zneg p * 2 ^ Z.of_nat k) with (Zneg (shl p k))
      by (rewrite <- Pos2Z.opp_pos, shl_value; lia).
    simpl binary_normalize.
    apply binary_round_rescale; trivial.
    apply digits_upper_bound; lia.
Qed.

Lemma shl_align_fst m e t :
  t <= e -> Zpos (fst (shl_align m e t)) = Zpos m * 2 ^ (e - t).
Proof.
  intro H. destruct (shl_align_value m e t H) as [E|[-> E]]; rewrite E; simpl.
  - rewrite shl_value, Z2Nat.id by lia. reflexivity.
  - rewrite Z.sub_diag. simpl. lia.
Qed.

(** The sum of two floats held on [ja] and [jb] binary places below the
    unit [2^e]. *)
Lemma add_finite_exact sa pa ja sb pb jb e :
  let c := cond_Zopp sa (Zpos pa) + cond_Zopp sb (Zpos pb) in
  Z.abs c < 2 ^ 53 -> -1074 <= e <= 971 ->
  PyFloat.add (S754_finite sa (shl pa ja) (e - Z.of_nat ja))
              (S754_finite sb (shl pb jb) (e - Z.of_nat jb))
  = dyadic e c.
Proof.
  intros c Hc He. unfold PyFloat.add. cbn [SFadd].
  set (k := Nat.max ja jb).
  replace (Z.min (e - Z.of_nat ja) (e - Z.of_nat jb))
    with (e - Z.of_nat k) by (unfold k; lia).
  rewrite !shl_align_fst by (unfold k; lia).
  rewrite !shl_value.
  replace (e - Z.of_nat ja - (e - Z.of_nat k))
    with (Z.of_nat (k - ja)) by (unfold k; lia).
  replace (e - Z.of_nat jb - (e - Z.of_nat k))
    with (Z.of_nat (k - jb)) by (unfold k; lia).
  rewrite <- (binary_normalize_rescale c k e Hc He). f_equal.
  assert (Ha : 2 ^ Z.of_nat ja * 2 ^ Z.of_nat (k - ja) = 2 ^ Z.of_nat k).
  { rewrite <- Z.pow_add_r by lia. f_equal. unfold k. lia. }
  assert (Hb : 2 ^ Z.of_nat jb * 2 ^ Z.of_nat (k - jb) = 2 ^ Z.of_nat k).
  { rewrite <- Z.pow_add_r by lia. f_equal. unfold k. lia. }
  unfold c. rewrite <- !Z.mul_assoc, Ha, Hb.
  destruct sa, sb; unfold cond_Zopp; ring.
Qed.

Lemma dyadic_finite e z :
  z <> 0 -> Z.abs z < 2 ^ 53 -> -1074 <= e <= 971 ->
  exists j,
    dyadic e z
    = S754_finite (z <? 0) (shl (Z.to_pos (Z.abs z)) j) (e - Z.of_nat j).
Proof.
  intros Hz Hb He. unfold dyadic.
  destruct z as [|p|p]; [contradiction| |]; simpl binary_normalize;
    (assert (Hd : Zpos (digits2_pos p) <= 53)
       by (apply digits_upper_bound; lia));
    rewrite (binary_round_unscaled _ p e Hd He);
    destruct (fexp_le (Zpos (digits2_pos p)) e) as [Hte Htl]; try lia;
    set (t := fexp prec emax (Zpos (digits2_pos p) + e)) in *;
    exists (Z.to_nat (e - t)); simpl; f_equal; lia.
Qed.

(** Additions whose operands and result are whole numbers of units below
    [2^53] are exact. *)
Lemma add_dyadic e a b :
  Z.abs a < 2 ^ 53 -> Z.abs b < 2 ^ 53 -> Z.abs (a + b) < 2 ^ 53 ->
  -1074 <= e <= 971 ->
  PyFloat.add (dyadic e a) (dyadic e b) = dyadic e (a + b).
Proof.
  intros Ha Hb Hab He.
  destruct (Z.eq_dec a 0) as [->|Hna]; [|destruct (Z.eq_dec b 0) as [->|Hnb]].
  - destruct (Z.eq_dec b 0) as [->|Hnb]; [reflexivity|].
    rewrite Z.add_0_l.
    destruct (dyadic_finite e b Hnb Hb He) as [j ->]. reflexivity.
  - rewrite Z.add_0_r.
    destruct (dyadic_finite e a Hna Ha He) as [j ->]. reflexivity.
  - destruct (dyadic_finite e a Hna Ha He) as [ja Ea].
    destruct (dyadic_finite e b Hnb Hb He) as [jb Eb].
    rewrite Ea, Eb.
    assert (Hsa : cond_Zopp (a <? 0) (Zpos (Z.to_pos (Z.abs a))) = a)
      by (destruct a; simpl; trivial; contradiction).
    assert (Hsb : cond_Zopp (b <? 0) (Zpos (Z.to_pos (Z.abs b))) = b)
      by (destruct b; simpl; trivial; contradiction).
    rewrite <- Hsa, <- Hsb at 3.
    apply add_finite_exact; trivial. now rewrite Hsa, Hsb.
Qed.

End ExactFacts.

(** ** Dictionaries *)

Module DictFacts.

Import PyDict.

Section Facts.
Context {K V : Type}.
Variable keq : K -> K -> bool.
Hypothesis keq_spec : forall a b, keq a b = true <-> a = b.

Lemma keq_refl : forall a, keq a a = true.
Proof. intro a. apply keq_spec. reflexivity. Qed.

Lemma keq_neq : forall a b, a <> b -> keq a b = false.
Proof.
  intros a b H. destruct (keq a b) eqn:E; [|reflexivity].
  apply keq_spec in E. contradiction.
Qed.

Lemma keq_sym_false : forall a b, keq a b = false -> keq b a = false.
Proof.
  intros a b H. apply keq_neq. intros ->. now rewrite keq_refl in H.
Qed.

Lemma key_in_dec (l : list K) k : In k l \/ ~ In k l.
Proof.
  induction l as [|a l IH]; simpl; [tauto|].
  destruct (keq a k) eqn:E.
  - apply keq_spec in E. tauto.
  - destruct IH; [tauto|]. right. intros [->|H']; [|tauto].
    now rewrite keq_refl in E.
Qed.

Lemma get_absent (d : @dict K V) k default :
  ~ In k (map fst d) -> get keq d k default = default.
Proof.
  induction d as [|[k' v'] d IH]; simpl; intro H; [reflexivity|].
  rewrite keq_neq by (intro; subst; apply H; now left).
  apply IH. intro; apply H; now right.
Qed.

Lemma get_set (d : @dict K V) k v k' default :
  get keq (set keq d k v) k' default
  = if keq k k' then v else get keq d k' default.
Proof.
  induction d as [|[k1 v1] d IH]; simpl.
  - reflexivity.
  - destruct (keq k1 k) eqn:E1; simpl.
    + apply keq_spec in E1. subst k1.
      destruct (keq k k'); reflexivity.
    + rewrite IH. destruct (keq k1 k') eqn:E2; [|reflexivity].
      apply keq_spec in E2. subst k'. now rewrite keq_sym_false.
Qed.

Lemma set_keys_in (d : @dict K V) k v k' :
  In k' (map fst (set keq d k v)) <-> k' = k \/ In k' (map fst d).
Proof.
  induction d as [|[k1 v1] d IH]; simpl.
  - intuition congruence.
  - destruct (keq k1 k) eqn:E1; simpl.
    + apply keq_spec in E1. subst k1. intuition congruence.
    + rewrite IH. intuition congruence.
Qed.

Lemma set_nodup (d : @dict K V) k v :
  NoDup (map fst d) -> NoDup (map fst (set keq d k v)).
Proof.
  induction d as [|[k1 v1] d IH]; simpl; intro H.
  - constructor; [intros []|constructor].
  - inversion H as [|? ? Hn Hd]; subst.
    destruct (keq k1 k) eqn:E1; simpl.
    + constructor; assumption.
    + constructor; [|now apply IH].
      rewrite set_keys_in. intros [->|Hin]; [|contradiction].
      now rewrite keq_refl in E1.
Qed.

Lemma in_get (d : @dict K V) k v default :
  NoDup (map fst d) ->
  (In (k, v) d <-> In k (map fst d) /\ get keq d k default = v).
Proof.
  induction d as [|[k1 v1] d IH]; simpl; intro H.
  - tauto.
  - inversion H as [|? ? Hn Hd]; subst.
    destruct (keq k1 k) eqn:E1.
    + apply keq_spec in E1. subst k1. split.
      * intros [Heq|Hin]; [inversion Heq; auto|].
        exfalso. apply Hn. now apply (in_map fst) in Hin.
      * intros [_ ->]. now left.
    + rewrite (IH Hd). split.
      * intros [Heq|Hin]; [|tauto].
        inversion Heq; subst. now rewrite keq_refl in E1.
      * intros [[->|Hin] Hg]; [now rewrite keq_refl in E1|tauto].
Qed.

End Facts.

End DictFacts.

(** ** The accumulation loop *)

Module AccumulateFacts.

Import PyFloat PyDict SalesCli Spec DictFacts.

Section Facts.
Context {K : Type}.
Variable keq : K -> K -> bool.
Hypothesis keq_spec : forall a b, keq a b = true <-> a = b.
Variable key : Row -> K.

Lemma key_total_snoc rows r k :
  key_total keq key (rows ++ [r]) k
  = if keq (key r) k
    then PyFloat.add (key_total keq key rows k) (amount r)
    else key_total keq key rows k.
Proof.
  unfold key_total, sum_floats. rewrite filter_app. simpl.
  destruct (keq (key r) k).
  - now rewrite map_app, fold_left_app.
  - now rewrite app_nil_r.
Qed.

Lemma key_total_absent rows k :
  ~ In k (map key rows) -> key_total keq key rows k = PyFloat.zero.
Proof.
  intro H. unfold key_total, sum_floats.
  replace (filter (fun r => keq (key r) k) rows) with (@nil Row);
    [reflexivity|].
  symmetry. induction rows as [|r rows IH]; simpl; [reflexivity|].
  rewrite (keq_neq keq keq_spec).
  - apply IH. intro Hin. apply H. now right.
  - intro Heq. apply H. now left.
Qed.

Lemma represents_empty : represents keq key PyDict.empty [].
Proof.
  repeat split; simpl; try tauto. constructor.
Qed.

Lemma represents_step d rows r :
  represents keq key d rows ->
  represents keq key
    (set keq d (key r)
       (PyFloat.add (get keq d (key r) PyFloat.zero) (amount r)))
    (rows ++ [r]).
Proof.
  intros (Hnd & Hkeys & Hget). repeat split.
  - now apply set_nodup.
  - rewrite (set_keys_in keq keq_spec), map_app, in_app_iff, Hkeys.
    simpl. intuition.
  - rewrite (set_keys_in keq keq_spec), map_app, in_app_iff, <- Hkeys.
    simpl. intuition.
  - intros k Hk. rewrite (get_set keq keq_spec), key_total_snoc.
    destruct (keq (key r) k) eqn:E.
    + apply keq_spec in E. subst k. f_equal.
      destruct (key_in_dec keq keq_spec (map fst d) (key r)) as [Hin|Hout].
      * now apply Hget.
      * rewrite (get_absent keq keq_spec) by assumption.
        symmetry. apply key_total_absent. now rewrite <- Hkeys.
    + apply Hget. apply (set_keys_in keq keq_spec) in Hk.
      destruct Hk as [->|Hk]; [|assumption].
      now rewrite (keq_refl keq keq_spec) in E.
Qed.

Lemma represents_fold rows : forall d pre,
  represents keq key d pre ->
  represents keq key
    (fold_left
       (fun totals r =>
          set keq totals (key r)
            (PyFloat.add (get keq totals (key r) PyFloat.zero) (amount r)))
       rows d)
    (pre ++ rows).
Proof.
  induction rows as [|r rows IH]; intros d pre H; simpl.
  - now rewrite app_nil_r.
  - replace (pre ++ r :: rows)%list with ((pre ++ [r]) ++ rows)%list
      by now rewrite <- app_assoc.
    apply IH. now apply represents_step.
Qed.

Lemma represents_accumulate rows :
  represents keq key (accumulate keq key rows) rows.
Proof.
  unfold accumulate. apply (represents_fold rows PyDict.empty []).
  apply represents_empty.
Qed.

(** The dictionary of the loop holds exactly one entry for each key of
    the rows, with the total of that key. *)
Lemma in_accumulate rows k v :
  In (k, v) (accumulate keq key rows)
  <-> In k (map key rows) /\ v = key_total keq key rows k.
Proof.
  destruct (represents_accumulate rows) as (Hnd & Hkeys & Hget).
  rewrite (in_get keq keq_spec _ k v PyFloat.zero Hnd), Hkeys.
  split; intros [Hin Hv]; split; trivial.
  - rewrite <- Hv. apply Hget. now apply Hkeys.
  - rewrite Hv. apply Hget. now apply Hkeys.
Qed.

Lemma accumulate_nodup rows :
  NoDup (map fst (accumulate keq key rows)).
Proof. apply represents_accumulate. Qed.

End Facts.

End AccumulateFacts.

(** ** Sorting *)

Module SortFacts.

Import PyList.

Section Facts.
Context {A K : Type}.
Variable key : A -> K.
Variable lt : K -> K -> bool.

Lemma insert_perm x l : Permutation (insert key lt x l) (x :: l).
Proof.
  induction l as [|y l IH]; simpl; [reflexivity|].
  destruct (lt (key x) (key y)); [reflexivity|].
  rewrite IH. apply perm_swap.
Qed.

Lemma fold_insert_perm l : forall acc,
  Permutation (fold_left (fun acc x => insert key lt x acc) l acc)
              (acc ++ l).
Proof.
  induction l as [|x l IH]; intro acc; simpl.
  - now rewrite app_nil_r.
  - rewrite IH, insert_perm. apply Permutation_middle.
Qed.

(** Sorting rearranges the list and nothing else. *)
Lemma sorted_perm l : Permutation (sorted key lt l) l.
Proof. apply (fold_insert_perm l []). Qed.

Variable R : A -> A -> Prop.

Lemma insert_HdRel x y l :
  R y x -> HdRel R y l -> HdRel R y (insert key lt x l).
Proof.
  intros Hyx Hhd. destruct l as [|z l]; simpl.
  - now constructor.
  - destruct (lt (key x) (key z)); constructor; trivial.
    now inversion Hhd.
Qed.

(** In the hypotheses below [x] comes after [y] in the list to sort,
    and the comparison of their keys agrees with [R]. *)
Lemma insert_Sorted x l :
  Sorted R l ->
  (forall y, In y l -> if lt (key x) (key y) then R x y else R y x) ->
  Sorted R (insert key lt x l).
Proof.
  induction l as [|y l IH]; simpl; intros Hs Hag.
  - repeat constructor.
  - inversion Hs as [|? ? Hs' Hhd]; subst.
    pose proof (Hag y (or_introl eq_refl)) as Hy.
    destruct (lt (key x) (key y)) eqn:E.
    + constructor; [assumption|]. now constructor.
    + constructor.
      * apply IH; [assumption|]. intros z Hz. apply Hag. now right.
      * now apply insert_HdRel.
Qed.

Lemma fold_insert_Sorted l : forall acc,
  Sorted R acc ->
  (forall y x, In y acc -> In x l ->
               if lt (key x) (key y) then R x y else R y x) ->
  ForallOrdPairs
    (fun y x => if lt (key x) (key y) then R x y else R y x) l ->
  Sorted R (fold_left (fun acc x => insert key lt x acc) l acc).
Proof.
  induction l as [|x l IH]; intros acc Hs Hcross Hpairs; simpl.
  - assumption.
  - inversion Hpairs as [|? ? Hx Hl]; subst. apply IH.
    + apply insert_Sorted; [assumption|].
      intros y Hy. apply Hcross; [assumption|now left].
    + intros y z Hy Hz.
      apply (Permutation_in _ (insert_perm x acc)) in Hy.
      destruct Hy as [->|Hy].
      * rewrite Forall_forall in Hx. now apply Hx.
      * apply Hcross; [assumption|now right].
    + assumption.
Qed.

(** When the comparisons of the keys agree with [R] on every two
    elements of the list, the sorted list is in the order [R]. *)
Lemma sorted_Sorted l :
  ForallOrdPairs
    (fun y x => if lt (key x) (key y) then R x y else R y x) l ->
  Sorted R (sorted key lt l).
Proof.
  intro H. unfold sorted.
  apply fold_insert_Sorted;
    [constructor | intros y x Hy; contradiction | assumption].
Qed.

End Facts.

End SortFacts.

(** ** Aggregation by SKU *)

Module AggregateFacts.

Import PyFloat SalesCli Spec Examples.

Lemma string_eqb_spec : forall a b, String.eqb a b = true <-> a = b.
Proof. apply String.eqb_eq. Qed.

Lemma date_eqb_spec : forall a b, PyDate.eqb a b = true <-> a = b.
Proof.
  intros [y1 m1 d1] [y2 m2 d2]. unfold PyDate.eqb. simpl.
  rewrite !andb_true_iff, !Z.eqb_eq. split.
  - intros [[-> ->] ->]. reflexivity.
  - intro H. inversion H. auto.
Qed.

Lemma aggregate_by_sku_perm rows :
  Permutation (aggregate_by_sku rows) (accumulate String.eqb sku rows).
Proof. apply SortFacts.sorted_perm. Qed.

Lemma aggregate_by_date_perm rows :
  Permutation (aggregate_by_date rows) (accumulate PyDate.eqb dt rows).
Proof. apply SortFacts.sorted_perm. Qed.

(** The table holds one pair for each SKU, with its total. *)
Lemma aggregate_by_sku_pairs rows :
  one_pair_per_sku rows (aggregate_by_sku rows).
Proof.
  split.
  - apply (Permutation_NoDup
             (Permutation_map fst (Permutation_sym (aggregate_by_sku_perm rows)))).
    apply (AccumulateFacts.accumulate_nodup String.eqb string_eqb_spec).
  - intros s v. unfold sku_total.
    rewrite <- (AccumulateFacts.in_accumulate String.eqb string_eqb_spec).
    split; apply Permutation_in;
      [|apply Permutation_sym]; apply aggregate_by_sku_perm.
Qed.

Lemma pairs_agree (l : list (string * float)) :
  NoDup (map fst l) ->
  (forall x, In x l -> is_nan (snd x) = false) ->
  ForallOrdPairs
    (fun y x => if sku_key_ltb (sku_key x) (sku_key y)
                then sku_order x y else sku_order y x) l.
Proof.
  induction l as [|y l IH]; simpl; intros Hnd Hnum; constructor.
  - inversion Hnd as [|? ? Hy _]; subst.
    apply Forall_forall. intros x Hx.
    apply OrderFacts.sku_key_ltb_order; auto.
    intros Heq. apply Hy. rewrite <- Heq. now apply in_map.
  - inversion Hnd; subst. apply IH; auto.
Qed.

Lemma totals_of_finite_amounts rows :
  finite_amounts rows -> totals_are_numbers rows.
Proof.
  intros Hfin s _. unfold sku_total, key_total, sum_floats.
  assert (Hgen : forall l acc,
             (forall x, In x l -> is_finite x = true) ->
             is_nan acc = false ->
             is_nan (fold_left PyFloat.add l acc) = false).
  { induction l as [|x l IH]; simpl; intros acc Hl Hacc; trivial.
    apply IH; auto. apply RoundFacts.add_finite_not_nan; auto. }
  apply Hgen; [|reflexivity].
  intros x Hx. apply in_map_iff in Hx. destruct Hx as (r & <- & Hr).
  apply filter_In in Hr. apply Hfin, Hr.
Qed.

Lemma sorted_table_of_numbers rows :
  totals_are_numbers rows ->
  StronglySorted sku_order (aggregate_by_sku rows).
Proof.
  intro Hnum. apply Sorted_StronglySorted.
  - intros a b c. apply OrderFacts.sku_order_trans.
  - apply SortFacts.sorted_Sorted. apply pairs_agree.
    + apply (AccumulateFacts.accumulate_nodup String.eqb string_eqb_spec).
    + intros [s v] Hin. simpl.
      apply (AccumulateFacts.in_accumulate String.eqb string_eqb_spec) in Hin.
      destruct Hin as [Hs ->]. now apply Hnum.
Qed.

(** C1, as the code has it.  When no SKU has a total that is not a
    number, as is the case when every amount is finite,
    [aggregate_by_sku] returns exactly one pair per distinct SKU of the
    rows, each with the sum of the amounts of that SKU added up from zero
    in the order of the rows, and the pairs stand by descending total,
    equal totals by ascending SKU; without rows the result is empty. *)
Theorem aggregate_by_sku_table rows :
  (finite_amounts rows -> totals_are_numbers rows)
  /\ (totals_are_numbers rows -> by_sku_table rows (aggregate_by_sku rows)).
Proof.
  split; [apply totals_of_finite_amounts|].
  intro Hnum. split; [apply aggregate_by_sku_pairs|split].
  - now apply sorted_table_of_numbers.
  - intros ->. reflexivity.
Qed.

Lemma aggregate_by_sku_table_witness :
  totals_are_numbers june_rows
  /\ by_sku_table june_rows (aggregate_by_sku june_rows).
Proof.
  assert (H : totals_are_numbers june_rows).
  { intros s Hs. simpl in Hs.
    repeat (destruct Hs as [<-|Hs]; [vm_compute; reflexivity|]).
    contradiction. }
  split; [exact H|exact (proj2 (aggregate_by_sku_table june_rows) H)].
Defined.

(** C1, as the specification states it, fails when a total is not a
    number: whichever way the two pairs stand, they are not in
    descending order. *)
Lemma aggregate_by_sku_nan_unsorted :
  ~ by_sku_table nan_rows (aggregate_by_sku nan_rows).
Proof.
  intros (_ & Hs & _).
  assert (E : aggregate_by_sku nan_rows
              = [("A", PyFloat.nan); ("B", lit "1.0")])
    by (vm_compute; reflexivity).
  rewrite E in Hs. inversion Hs as [|? ? _ Hall]; subst.
  inversion Hall as [|? ? Hord _]; subst.
  destruct Hord as [H|[H _]]; vm_compute in H; discriminate.
Qed.

End AggregateFacts.

(** ** The printed block *)

Module FormatFacts.

Import PyFloat SalesCli Spec Examples.

Lemma fold_append {A : Type} (f : A -> string) (l : list A) :
  forall lines,
    fold_left (fun lines x => append lines (f x)) l lines
    = (lines ++ map f l)%list.
Proof.
  induction l as [|x l IH]; intro lines; simpl.
  - now rewrite app_nil_r.
  - rewrite IH. unfold append. now rewrite <- app_assoc.
Qed.

(** The block is made of the total, the BY_SKU section of the truncated
    table, the BY_DATE section if asked for, and the date range. *)
Lemma format_output_block rows top by_date :
  _format_output rows top by_date
  = block rows (truncate top (aggregate_by_sku rows)) by_date.
Proof.
  unfold _format_output, block, by_sku_section, by_date_section.
  f_equal. destruct by_date; cbv zeta; rewrite !fold_append;
    unfold append, total_line, date_range_line;
    repeat rewrite <- app_assoc; reflexivity.
Qed.

Lemma truncate_top_n {A : Type} ns (l : list A) :
  truncate (top_n ns) l = truncate (top ns) l.
Proof.
  unfold top_n, truncate. destruct (top ns) as [n|]; trivial.
  destruct (0 <=? n) eqn:E; trivial. now rewrite E.
Qed.

Lemma export_pairs_truncate ns rows :
  export_pairs ns rows = truncate (top ns) (aggregate_by_sku rows).
Proof.
  rewrite <- truncate_top_n. unfold export_pairs, truncate, top_n.
  destruct (top ns) as [n|]; trivial.
  destruct (0 <=? n) eqn:E; trivial. now rewrite E.
Qed.

(** C3.  A limit [n >= 0] shows the first [n] pairs of the by-SKU table,
    at most [n] lines, and leaves the rest of the block as it is without
    a limit: the same total line, BY_DATE section and date range; a
    negative limit gives the block without a limit, and [main] prints the
    block for the limit it was given. *)
Theorem top_limits_by_sku_only rows by_date n :
  0 <= n ->
  _format_output rows (Some n) by_date
    = block rows (firstn (Z.to_nat n) (aggregate_by_sku rows)) by_date
  /\ _format_output rows None by_date
      = block rows (aggregate_by_sku rows) by_date
  /\ (List.length
        (by_sku_section (firstn (Z.to_nat n) (aggregate_by_sku rows)))
      <= Z.to_nat n)%nat
  /\ (forall m, m < 0 ->
        _format_output rows (Some m) by_date
        = _format_output rows None by_date)
  /\ (forall ns,
        _format_output rows (top_n ns) by_date
        = _format_output rows (top ns) by_date).
Proof.
  intro Hn. repeat split.
  - rewrite format_output_block. unfold truncate, PyList.take.
    now rewrite (proj2 (Z.leb_le 0 n) Hn).
  - now rewrite format_output_block.
  - unfold by_sku_section. rewrite length_map. apply firstn_le_length.
  - intros m Hm. rewrite !format_output_block. unfold truncate.
    now rewrite (proj2 (Z.leb_gt 0 m) Hm).
  - intro ns. rewrite !format_output_block. now rewrite truncate_top_n.
Qed.

Lemma top_limits_by_sku_only_witness :
  0 <= 2
  /\ _format_output june_rows (Some 2) true
     = block june_rows (firstn 2 (aggregate_by_sku june_rows)) true.
Proof.
  split; [lia|].
  exact (proj1 (top_limits_by_sku_only june_rows true 2 ltac:(lia))).
Defined.

(** Without rows the block has a zero total, an empty BY_SKU section and
    an unknown date range, whatever the limit. *)
Lemma format_output_no_rows top by_date :
  _format_output [] top by_date
  = PyStr.join LF
      (["TOTAL,0.00"; "BY_SKU"]
         ++ (if by_date then ["BY_DATE"] else [])
         ++ ["DATE_RANGE,unknown"]).
Proof.
  rewrite format_output_block.
  assert (E : truncate top (aggregate_by_sku []) = []).
  { unfold truncate, PyList.take. simpl.
    destruct top as [n|]; trivial.
    destruct (0 <=? n); trivial. now destruct (Z.to_nat n). }
  rewrite E. destruct by_date; reflexivity.
Qed.

(** C8.  The block of the six sales of June: the total, the three SKUs by
    descending total, and the date range. *)
Theorem june_block :
  _format_output june_rows None false
  = PyStr.join LF
      ["TOTAL,48.00"; "BY_SKU"; "CCC,20.00"; "AAA,19.50"; "BBB,8.50";
       "DATE_RANGE,2024-06-01..2024-06-06"].
Proof. vm_compute. reflexivity. Qed.

End FormatFacts.

(** ** Parsing *)

Module ParseFacts.

Import PyFloat SalesCli Spec Examples.

Section Facts.

Variable fromisoformat : string -> option PyDate.date.

Lemma is_empty_spec s : PyStr.is_empty s = true <-> s = EmptyString.
Proof. destruct s; simpl; split; congruence. Qed.

(** C10.  A record that fails several checks is reported for the first
    of them only, the SKU before the date and the date before the amount;
    a record that fails none is accepted.  So a record without SKU whose
    date does not parse either raises the error about the SKU. *)
Theorem first_failing_check_is_reported i raw :
  match failing_checks fromisoformat raw with
  | c :: _ =>
      parse_line fromisoformat i raw = inl (InputError (message i raw c))
  | [] => exists r, parse_line fromisoformat i raw = inr r
  end
  /\ failing_checks PyDate.fromisoformat all_bad_raw
     = [CheckSku; CheckDate; CheckAmount]
  /\ parse_line PyDate.fromisoformat i all_bad_raw
     = inl (InputError ("line " ++ str_int i ++ ": sku must be non-empty")).
Proof.
  split.
  - unfold failing_checks, parse_line. simpl.
    fold (sku_field raw) (date_field raw) (amount_field raw).
    destruct (PyStr.is_empty (sku_field raw)); [reflexivity|].
    destruct (fromisoformat (date_field raw)); [|reflexivity].
    destruct (float_of_string (amount_field raw)); [|reflexivity].
    eexists. reflexivity.
  - split; reflexivity.
Qed.

(** C5, as the code has it.  On a record with a SKU and a date that
    parses, the amount is what [float] makes of the trimmed field: when
    [float] rejects it the record raises an input error with the line
    number and the trimmed field, and otherwise the record is accepted
    with that float, be it finite or not. *)
Theorem amount_is_what_float_reads i raw d :
  sku_field raw <> EmptyString ->
  fromisoformat (date_field raw) = Some d ->
  match float_of_string (amount_field raw) with
  | None =>
      parse_line fromisoformat i raw
      = inl (InputError ("line " ++ str_int i ++ ": invalid amount '"
                           ++ amount_field raw ++ "'"))
  | Some x =>
      parse_line fromisoformat i raw = inr (mkRow d (sku_field raw) x)
  end.
Proof.
  intros Hsku Hdate. unfold parse_line.
  fold (sku_field raw) (date_field raw) (amount_field raw).
  destruct (PyStr.is_empty (sku_field raw)) eqn:E.
  - apply is_empty_spec in E. contradiction.
  - rewrite Hdate. now destruct (float_of_string (amount_field raw)).
Qed.

End Facts.

Lemma amount_is_what_float_reads_witness :
  sku_field good_raw <> EmptyString
  /\ PyDate.fromisoformat (date_field good_raw)
     = Some (PyDate.mkdate 2024 6 1)
  /\ parse_line PyDate.fromisoformat 2 good_raw
     = inr (mkRow (PyDate.mkdate 2024 6 1) "AAA" (lit "10.0")).
Proof.
  assert (H1 : sku_field good_raw <> EmptyString) by discriminate.
  assert (H2 : PyDate.fromisoformat (date_field good_raw)
               = Some (PyDate.mkdate 2024 6 1)) by reflexivity.
  split; [exact H1|split; [exact H2|]].
  exact (amount_is_what_float_reads PyDate.fromisoformat 2 good_raw _ H1 H2).
Defined.

(** What [float] reads besides finite numbers. *)
Lemma float_reads_non_finite :
  float_of_string "inf" = Some PyFloat.inf
  /\ float_of_string "-Infinity" = Some (S754_infinity true)
  /\ float_of_string "NaN" = Some PyFloat.nan
  /\ float_of_string "1e999" = Some PyFloat.inf
  /\ float_of_string "ten" = None
  /\ float_of_string EmptyString = None.
Proof. repeat split; vm_compute; reflexivity. Qed.

(** C5, as the specification states it, fails: an amount that is not
    finite is accepted. *)
Lemma infinite_amount_is_accepted :
  ~ (forall file rows,
       parse_rows PyDate.fromisoformat "sales.csv" (Some file) = inr rows ->
       forall r, In r rows -> is_finite (amount r) = true).
Proof.
  intro H.
  specialize (H infinite_amount_csv
                [mkRow (PyDate.mkdate 2024 1 1) "AAA" PyFloat.inf]
                eq_refl _ (or_introl eq_refl)).
  discriminate H.
Qed.

End ParseFacts.

(** ** The parsing loop and the entry point *)

Module MainFacts.

Import PyFloat SalesCli Spec Examples.

Section Facts.

Variable fromisoformat : string -> option PyDate.date.

(** The loop stops at the first record that raises: the records before it
    were all accepted, and nothing of them is returned. *)
Lemma parse_loop_fails_fast it : forall i acc e,
  parse_loop fromisoformat i it acc = inl (InputError e) ->
  exists k raw,
    nth_error (yielded it) k = Some raw
    /\ parse_line fromisoformat (i + Z.of_nat k) raw = inl (InputError e)
    /\ forall j raw', (j < k)%nat -> nth_error (yielded it) j = Some raw' ->
         exists r, parse_line fromisoformat (i + Z.of_nat j) raw' = inr r.
Proof.
  induction it as [|err|raw rest IH]; intros i acc e H; simpl in H.
  - discriminate.
  - discriminate.
  - destruct (parse_line fromisoformat i raw) as [e'|r] eqn:E.
    + exists 0%nat, raw. inversion H; subst. simpl.
      rewrite Z.add_0_r.
      split; [reflexivity|split; [assumption|intros j raw' Hj; lia]].
    + destruct (IH _ _ _ H) as (k & raw1 & Hk & Hline & Hbefore).
      exists (S k), raw1.
      replace (i + Z.of_nat (S k)) with (i + 1 + Z.of_nat k) by lia.
      split; [exact Hk|split; [exact Hline|]].
      intros [|j] raw' Hj Hnth; simpl in Hnth.
      * inversion Hnth; subst. rewrite Z.add_0_r. now exists r.
      * replace (i + Z.of_nat (S j)) with (i + 1 + Z.of_nat j) by lia.
        apply Hbefore; [lia|assumption].
Qed.

Lemma append_empty_r s : (s ++ EmptyString)%string = s.
Proof. induction s as [|c s IH]; simpl; [reflexivity|now rewrite IH]. Qed.

Lemma append_assoc (a b c : string) :
  ((a ++ b) ++ c)%string = (a ++ (b ++ c))%string.
Proof. induction a as [|x a IH]; simpl; [reflexivity|now rewrite IH]. Qed.

Lemma writerows_cons r rs :
  Csv.writerows (r :: rs) = (Csv.writerow r ++ Csv.writerows rs)%string.
Proof.
  unfold Csv.writerows. destruct rs as [|r' rs]; simpl.
  - now rewrite append_empty_r.
  - reflexivity.
Qed.

(** Conversely, the first record that fails a check ends the loop with
    the error of that record, numbered from [i]. *)
Lemma parse_loop_first_error it : forall i acc k raw e,
  nth_error (yielded it) k = Some raw ->
  (forall j raw', (j < k)%nat -> nth_error (yielded it) j = Some raw' ->
     exists r, parse_line fromisoformat (i + Z.of_nat j) raw' = inr r) ->
  parse_line fromisoformat (i + Z.of_nat k) raw = inl e ->
  parse_loop fromisoformat i it acc = inl e.
Proof.
  induction it as [|err|raw0 rest IH]; intros i acc k raw e Hk Hbefore He;
    simpl in Hk.
  - destruct k; discriminate.
  - destruct k; discriminate.
  - destruct k as [|k]; simpl in *.
    + inversion Hk; subst. rewrite Z.add_0_r in He. now rewrite He.
    + destruct (Hbefore 0%nat raw0 ltac:(lia) eq_refl) as [r Hr].
      rewrite Z.add_0_r in Hr. rewrite Hr.
      apply (IH (i + 1) _ k raw e Hk).
      * intros j raw' Hj Hnth.
        replace (i + 1 + Z.of_nat j) with (i + Z.of_nat (S j)) by lia.
        apply Hbefore; [lia|exact Hnth].
      * replace (i + 1 + Z.of_nat k) with (i + Z.of_nat (S k)) by lia.
        exact He.
Qed.

(** An input error makes [main] print it after [error: ] on the error
    stream, print nothing else, write nothing, and return 2. *)
Lemma main_input_error ns file e :
  parse_rows fromisoformat (csv_path ns) file = inl (InputError e) ->
  main fromisoformat ns file
  = inr (mkRun 2 EmptyString ("error: " ++ e ++ LF) None).
Proof. intro H. unfold main. now rewrite H. Qed.

(** C7.  A file of length zero parses to no rows, and so does a file with
    the header alone; without rows the block has the total 0.00, an empty
    BY_SKU section and an unknown date range. *)
Theorem no_data path top by_date :
  parse_rows fromisoformat path (Some EmptyString) = inr []
  /\ parse_rows fromisoformat path (Some header_only_csv) = inr []
  /\ _format_output [] top by_date
     = PyStr.join LF
         (["TOTAL,0.00"; "BY_SKU"]
            ++ (if by_date then ["BY_DATE"] else [])
            ++ ["DATE_RANGE,unknown"]).
Proof.
  repeat split; try reflexivity. apply FormatFacts.format_output_no_rows.
Qed.

(** C6.  When [main] exports, the rows it hands to the writer are the
    header [sku,amount] and then one row per pair shown in the BY_SKU
    section of the block it prints, in the same order and under the same
    limit; each displayed line is its export row with a comma between the
    SKU and the amount, so the amounts are formatted alike. *)
Theorem export_matches_display ns file rows path :
  parse_rows fromisoformat (csv_path ns) file = inr rows ->
  out ns = Some path ->
  path <> EmptyString ->
  let shown := truncate (top ns) (aggregate_by_sku rows) in
  let exported := ["sku"; "amount"] :: map export_row shown in
  main fromisoformat ns file
  = inr (mkRun 0 (block rows shown (by_date ns) ++ LF) EmptyString
           (Some (path, exported, Csv.writerows exported)))
  /\ by_sku_section shown = map display_of_export_row (map export_row shown)
  /\ Csv.writerows exported
     = "sku,amount" ++ Csv.CRLF ++ Csv.writerows (map export_row shown).
Proof.
  intros Hparse Hout Hpath shown exported. repeat split.
  - unfold main. rewrite Hparse, Hout.
    destruct (PyStr.is_empty path) eqn:E.
    + destruct path; [contradiction|discriminate].
    + rewrite FormatFacts.format_output_block,
        FormatFacts.truncate_top_n, FormatFacts.export_pairs_truncate.
      reflexivity.
  - unfold by_sku_section. rewrite map_map. apply map_ext.
    intros [s a]. reflexivity.
  - unfold exported. rewrite writerows_cons. reflexivity.
Qed.

End Facts.

Lemma export_matches_display_witness :
  parse_rows PyDate.fromisoformat (csv_path export_ns) (Some june_csv)
    = inr june_rows
  /\ out export_ns = Some "out.csv"
  /\ "out.csv" <> EmptyString
  /\ main PyDate.fromisoformat export_ns (Some june_csv)
     = inr (mkRun 0
              (block june_rows
                 (truncate (Some 2) (aggregate_by_sku june_rows)) false ++ LF)
              EmptyString
              (Some ("out.csv",
                     ["sku"; "amount"]
                       :: map export_row
                            (truncate (Some 2) (aggregate_by_sku june_rows)),
                     Csv.writerows
                       (["sku"; "amount"]
                          :: map export_row
                               (truncate (Some 2)
                                  (aggregate_by_sku june_rows)))))).
Proof.
  assert (H1 : parse_rows PyDate.fromisoformat (csv_path export_ns)
                 (Some june_csv)
               = inr june_rows) by (vm_compute; reflexivity).
  assert (H2 : out export_ns = Some "out.csv") by reflexivity.
  assert (H3 : "out.csv" <> EmptyString) by discriminate.
  split; [exact H1|split; [exact H2|split; [exact H3|]]].
  exact (proj1 (export_matches_display PyDate.fromisoformat export_ns
                  (Some june_csv) june_rows "out.csv" H1 H2 H3)).
Defined.

(** C4 at a file with a blank line after the header.  The reader yields
    the bad record when it has read three lines, the loop numbers it 2,
    and [main] reports line 2 and returns 2. *)
Theorem blank_line_shifts_the_line_number :
  yielded (Csv.reader blank_line_csv)
    = [ Csv.mkrow 1 ["date"; "sku"; "amount"];
        Csv.mkrow 2 [];
        Csv.mkrow 3 ["2024-01-01"; "AAA"; "ten"] ]
  /\ parse_rows PyDate.fromisoformat "sales.csv" (Some blank_line_csv)
     = inl (InputError "line 2: invalid amount 'ten'")
  /\ main PyDate.fromisoformat
          (mkNamespace "sales.csv" None false None) (Some blank_line_csv)
     = inr (mkRun 2 EmptyString
              ("error: line 2: invalid amount 'ten'" ++ LF) None).
Proof. repeat split; vm_compute; reflexivity. Qed.

(** The file [main] exports for the six sales of June under the limit 2
    reads back, through the reader, as the rows handed to the writer. *)
Lemma june_export_reads_back :
  export_rows (export_pairs export_ns june_rows)
  = [["sku"; "amount"]; ["CCC"; "20.00"]; ["AAA"; "19.50"]]
  /\ map Csv.cells
       (yielded
          (Csv.reader
             (Csv.writerows (export_rows (export_pairs export_ns june_rows)))))
     = export_rows (export_pairs export_ns june_rows).
Proof. split; vm_compute; reflexivity. Qed.

(** Without the blank line the number is that of the line. *)
Lemma bad_amount_on_line_two :
  parse_rows PyDate.fromisoformat "sales.csv" (Some bad_amount_csv)
  = inl (InputError "line 2: invalid amount 'ten'").
Proof. vm_compute. reflexivity. Qed.

End MainFacts.

(** ** The arithmetic helpers *)

Module MathUtilsFacts.

Import PyFloat MathUtils.

Lemma eqb_zero b :
  PyFloat.eqb b PyFloat.zero = true <-> exists s, b = S754_zero s.
Proof.
  destruct b as [s|s| |s m e]; try destruct s; simpl; split;
    try discriminate; try (intros [s' H]; discriminate);
    try (intros _; eexists; reflexivity); reflexivity.
Qed.

(** C9.  [divide] raises the division-by-zero error when the divisor is
    a zero, of either sign, whatever the dividend; for every other divisor
    it raises nothing and returns the quotient; [add] returns the sum. *)
Theorem divide_and_add a b :
  (forall s, divide a (S754_zero s)
             = inl (MkZeroDivisionError "division by zero"))
  /\ ((forall s, b <> S754_zero s) -> divide a b = inr (PyFloat.div a b))
  /\ add a b = PyFloat.add a b.
Proof.
  split; [intro s; reflexivity|split; [|reflexivity]].
  intro Hb. unfold divide.
  destruct (PyFloat.eqb b PyFloat.zero) eqn:E; trivial.
  apply eqb_zero in E. destruct E as [s ->]. now elim (Hb s).
Qed.

Lemma divide_and_add_witness :
  (forall s, Examples.lit "2" <> S754_zero s)
  /\ divide (Examples.lit "5") (Examples.lit "2") = inr (Examples.lit "2.5").
Proof.
  assert (H : forall s, Examples.lit "2" <> S754_zero s)
    by (intros s; vm_compute; discriminate).
  split; [exact H|].
  exact (proj1 (proj2 (divide_and_add (Examples.lit "5") (Examples.lit "2")))
           H).
Defined.

End MathUtilsFacts.

(** ** The three sums *)

Module TotalsFacts.

Import PyFloat SalesCli Spec Examples.

Lemma zsum_abs_nonneg l : 0 <= zsum (map Z.abs l).
Proof. induction l as [|z l IH]; simpl; lia. Qed.

Lemma zsum_abs l : Z.abs (zsum l) <= zsum (map Z.abs l).
Proof. induction l as [|z l IH]; simpl; lia. Qed.

Lemma zsum_app l1 l2 : zsum (l1 ++ l2) = zsum l1 + zsum l2.
Proof. induction l1 as [|z l1 IH]; simpl; lia. Qed.

Lemma zsum_map_le {A : Type} (g h : A -> Z) l :
  (forall x, In x l -> g x <= h x) -> zsum (map g l) <= zsum (map h l).
Proof.
  induction l as [|x l IH]; simpl; intro H; [lia|].
  pose proof (H x (or_introl eq_refl)).
  assert (zsum (map g l) <= zsum (map h l)) by (apply IH; auto). lia.
Qed.

Lemma zsum_perm l1 l2 : Permutation l1 l2 -> zsum l1 = zsum l2.
Proof. induction 1; simpl; lia. Qed.

(** A chain of additions that stays below [2^53] units is exact. *)
Lemma fold_dyadic e zs : forall acc,
  -1074 <= e <= 971 ->
  Z.abs acc + zsum (map Z.abs zs) < 2 ^ 53 ->
  fold_left PyFloat.add (map (dyadic e) zs) (dyadic e acc)
  = dyadic e (acc + zsum zs).
Proof.
  induction zs as [|z zs IH]; intros acc He Hb; simpl in *.
  - now rewrite Z.add_0_r.
  - pose proof (zsum_abs_nonneg zs).
    rewrite ExactFacts.add_dyadic by lia.
    rewrite IH by lia. f_equal. lia.
Qed.

Lemma sum_floats_dyadic e zs :
  -1074 <= e <= 971 -> zsum (map Z.abs zs) < 2 ^ 53 ->
  sum_floats (map (dyadic e) zs) = dyadic e (zsum zs).
Proof.
  intros He Hb. unfold sum_floats.
  change PyFloat.zero with (dyadic e 0).
  rewrite fold_dyadic; trivial.
Qed.

Lemma amounts_dyadic e rows :
  (forall r, In r rows -> on_grid e (amount r)) ->
  map amount rows = map (dyadic e) (map (fun r => units e (amount r)) rows).
Proof.
  intro H. rewrite map_map. apply map_ext_in.
  intros r Hr. apply (H r Hr).
Qed.

Lemma total_sum_floats rows : total rows = sum_floats (map amount rows).
Proof.
  unfold total, sum_floats. generalize PyFloat.zero.
  induction rows as [|r rows IH]; intro acc; simpl; trivial.
Qed.

Lemma abs_units_filter e (p : Row -> bool) rows :
  abs_units e (filter p rows) <= abs_units e rows.
Proof.
  unfold abs_units. induction rows as [|r rows IH]; simpl; [lia|].
  destruct (p r); simpl; lia.
Qed.

(** Without rounding, a list of amounts adds up to the float of the sum
    of their units. *)
Lemma sum_amounts_exact e rows :
  -1074 <= e <= 971 ->
  (forall r, In r rows -> on_grid e (amount r)) ->
  abs_units e rows < 2 ^ 53 ->
  sum_floats (map amount rows)
  = dyadic e (zsum (map (fun r => units e (amount r)) rows)).
Proof.
  intros He Hg Hb. rewrite (amounts_dyadic e rows Hg).
  apply sum_floats_dyadic; trivial.
  unfold abs_units in Hb. now rewrite map_map.
Qed.

Section Partition.

Context {K : Type}.
Variable keq : K -> K -> bool.
Hypothesis keq_spec : forall a b, keq a b = true <-> a = b.
Variable key : Row -> K.
Variable f : Row -> Z.

Lemma zsum_indicator k0 v keys :
  NoDup keys -> In k0 keys ->
  zsum (map (fun k => if keq k0 k then v else 0) keys) = v.
Proof.
  induction keys as [|k keys IH]; simpl; intros Hnd Hin; [contradiction|].
  inversion Hnd as [|? ? Hk Hnd']; subst.
  destruct Hin as [->|Hin].
  - rewrite (DictFacts.keq_refl keq keq_spec).
    replace (zsum (map (fun k => if keq k0 k then v else 0) keys)) with 0;
      [lia|].
    symmetry. clear IH Hnd Hnd'.
    induction keys as [|k keys IH]; simpl; trivial.
    rewrite (DictFacts.keq_neq keq keq_spec) by (intros ->; apply Hk; now left).
    rewrite IH; [reflexivity|]. intro; apply Hk; now right.
  - rewrite (DictFacts.keq_neq keq keq_spec) by (intros ->; contradiction).
    rewrite IH; trivial.
Qed.

(** Grouping the rows by key and adding the groups up adds every row
    once. *)
Lemma zsum_partition keys rows :
  NoDup keys -> (forall r, In r rows -> In (key r) keys) ->
  zsum (map (fun k => zsum (map f (filter (fun r => keq (key r) k) rows)))
            keys)
  = zsum (map f rows).
Proof.
  intros Hnd. induction rows as [|r rows IH]; intro Hin; simpl.
  - induction keys as [|k keys IHk]; simpl; trivial.
    inversion Hnd; subst. now rewrite IHk.
  - rewrite <- IH by (intros; apply Hin; now right).
    rewrite <- (zsum_indicator (key r) (f r) keys Hnd
                  (Hin r (or_introl eq_refl))) at 1.
    clear. induction keys as [|k keys IHk]; simpl; trivial.
    destruct (keq (key r) k); simpl; lia.
Qed.

End Partition.

Section Tables.

Context {K : Type}.
Variable keq : K -> K -> bool.
Hypothesis keq_spec : forall a b, keq a b = true <-> a = b.
Variable key : Row -> K.

(** The totals of a table of the rows, added up without rounding, give
    the float of the sum of the units of all rows. *)
Lemma table_sum_exact e rows table :
  Permutation table (accumulate keq key rows) ->
  exact_amounts e rows ->
  sum_floats (map snd table)
  = dyadic e (zsum (map (fun r => units e (amount r)) rows)).
Proof.
  intros Hperm (He & Hg & Hb).
  set (u := fun r => units e (amount r)).
  set (group := fun k => filter (fun r => keq (key r) k) rows).
  assert (Hnd : NoDup (map fst table)).
  { apply (Permutation_NoDup
             (Permutation_map fst (Permutation_sym Hperm))).
    apply (AccumulateFacts.accumulate_nodup keq keq_spec). }
  assert (Hin : forall k v, In (k, v) table ->
                  In k (map key rows) /\ v = key_total keq key rows k).
  { intros k v H. apply (AccumulateFacts.in_accumulate keq keq_spec).
    now apply (Permutation_in _ Hperm). }
  assert (Hkeys : forall r, In r rows -> In (key r) (map fst table)).
  { intros r Hr.
    assert (H : In (key r, key_total keq key rows (key r))
                   (accumulate keq key rows)).
    { apply (AccumulateFacts.in_accumulate keq keq_spec).
      split; [now apply in_map|reflexivity]. }
    apply (Permutation_in _ (Permutation_sym Hperm)) in H.
    now apply (in_map fst) in H. }
  assert (Hgroup : forall k,
            key_total keq key rows k = dyadic e (zsum (map u (group k)))).
  { intro k. unfold key_total. apply sum_amounts_exact; trivial.
    - intros r Hr. apply Hg. now apply filter_In in Hr.
    - eapply Z.le_lt_trans; [apply abs_units_filter|exact Hb]. }
  assert (Hsnd : map snd table
                 = map (dyadic e)
                     (map (fun k => zsum (map u (group k))) (map fst table))).
  { rewrite !map_map. apply map_ext_in. intros [k v] Hkv. simpl.
    rewrite <- Hgroup. now apply Hin. }
  rewrite Hsnd, sum_floats_dyadic; trivial.
  - f_equal. apply (zsum_partition keq keq_spec key u); trivial.
  - apply Z.le_lt_trans with (2 := Hb). unfold abs_units.
    apply Z.le_trans
      with (zsum (map (fun k => zsum (map (fun r => Z.abs (u r)) (group k)))
                      (map fst table))).
    + rewrite map_map. apply zsum_map_le. intros k _.
      rewrite <- (map_map u Z.abs). apply zsum_abs.
    + unfold group.
      rewrite (zsum_partition keq keq_spec key (fun r => Z.abs (u r))
                 (map fst table) rows Hnd Hkeys).
      apply Z.le_refl.
Qed.

End Tables.

(** C2, as the code has it.  When every amount is a whole number of
    units [2^e] and the magnitudes of the amounts add up to less than
    [2^53] units, no addition rounds, and the totals by SKU, the totals by
    date and the amounts themselves all add up to the same float. *)
Theorem exact_sums_agree e rows :
  exact_amounts e rows ->
  sum_by_sku rows = total rows
  /\ sum_by_date rows = total rows
  /\ sums_agree rows.
Proof.
  intro H.
  assert (Hsku : sum_by_sku rows
                 = dyadic e (zsum (map (fun r => units e (amount r)) rows))).
  { apply (table_sum_exact String.eqb AggregateFacts.string_eqb_spec sku);
      trivial. apply AggregateFacts.aggregate_by_sku_perm. }
  assert (Hdate : sum_by_date rows
                  = dyadic e (zsum (map (fun r => units e (amount r)) rows))).
  { apply (table_sum_exact PyDate.eqb AggregateFacts.date_eqb_spec dt);
      trivial. apply AggregateFacts.aggregate_by_date_perm. }
  assert (Htotal : total rows
                   = dyadic e (zsum (map (fun r => units e (amount r)) rows))).
  { destruct H as (He & Hg & Hb). rewrite total_sum_floats.
    now apply sum_amounts_exact. }
  assert (Hrefl : forall z, PyFloat.eqb (dyadic e z) (dyadic e z) = true).
  { intro z. apply OrderFacts.eqb_rank. repeat split;
      apply RoundFacts.binary_normalize_not_nan. }
  unfold sums_agree. rewrite Hsku, Hdate, Htotal. auto.
Qed.

Lemma exact_sums_agree_witness :
  exact_amounts (-1) june_rows
  /\ sum_by_sku june_rows = total june_rows
  /\ sum_by_date june_rows = total june_rows.
Proof.
  assert (H : exact_amounts (-1) june_rows).
  { split; [lia|split].
    - intros r Hr. simpl in Hr.
      repeat (destruct Hr as [<-|Hr];
              [split; [vm_compute; reflexivity|vm_compute; reflexivity]|]).
      contradiction.
    - vm_compute. reflexivity. }
  split; [exact H|].
  split; [exact (proj1 (exact_sums_agree (-1) june_rows H))
         |exact (proj1 (proj2 (exact_sums_agree (-1) june_rows H)))].
Defined.

(** C2, as the specification states it, fails: a small amount is lost
    when it is added to a large one, and whether that happens depends on
    the grouping.  Here the totals by SKU add up to 1 and the totals by
    date to 0. *)
Lemma absorbed_amount_breaks_sums :
  ~ sums_agree absorbing_rows.
Proof.
  intros [H _]. vm_compute in H. discriminate H.
Qed.

End TotalsFacts.

(** ** Dates and the by-date table *)

Module DateFacts.

Import PyFloat PyDate SalesCli Spec Behaviour Examples.

Lemma ltb_spec a b :
  PyDate.ltb a b = true
  <-> year a < year b
      \/ (year a = year b
          /\ (month a < month b \/ (month a = month b /\ day a < day b))).
Proof.
  unfold PyDate.ltb.
  rewrite !orb_true_iff, !andb_true_iff, !orb_true_iff, !andb_true_iff,
    !Z.ltb_lt, !Z.eqb_eq.
  reflexivity.
Qed.

Lemma ltb_false a b :
  PyDate.ltb a b = false
  <-> ~ (year a < year b
         \/ (year a = year b
             /\ (month a < month b \/ (month a = month b /\ day a < day b)))).
Proof.
  rewrite <- ltb_spec. destruct (PyDate.ltb a b); split; congruence.
Qed.

Lemma date_ext a b :
  year a = year b -> month a = month b -> day a = day b -> a = b.
Proof. destruct a, b; simpl; intros; subst; reflexivity. Qed.

Lemma ltb_irrefl a : PyDate.ltb a a = false.
Proof. apply ltb_false. lia. Qed.

Lemma ltb_trans a b c :
  PyDate.ltb a b = true -> PyDate.ltb b c = true -> PyDate.ltb a c = true.
Proof. rewrite !ltb_spec. lia. Qed.

Lemma ltb_total a b :
  a <> b -> PyDate.ltb a b = false -> PyDate.ltb b a = true.
Proof.
  intros Hne H. apply ltb_false in H. apply ltb_spec.
  destruct (Z.eq_dec (year a) (year b)) as [Hy|Hy]; [|lia].
  destruct (Z.eq_dec (month a) (month b)) as [Hm|Hm]; [|lia].
  destruct (Z.eq_dec (day a) (day b)) as [Hd|Hd]; [|lia].
  elim Hne. now apply date_ext.
Qed.

(** Not being later is transitive. *)
Lemma not_ltb_trans a b c :
  PyDate.ltb b a = false -> PyDate.ltb c b = false -> PyDate.ltb c a = false.
Proof. rewrite !ltb_false. lia. Qed.

Lemma dates_agree (l : list (date * float)) :
  NoDup (map fst l) ->
  ForallOrdPairs
    (fun y x => if PyDate.ltb (fst x) (fst y)
                then date_order x y else date_order y x) l.
Proof.
  induction l as [|y l IH]; simpl; intros Hnd; constructor.
  - inversion Hnd as [|? ? Hy _]; subst.
    apply Forall_forall. intros x Hx. unfold date_order.
    destruct (PyDate.ltb (fst x) (fst y)) eqn:E; trivial.
    apply ltb_total; trivial.
    intros Heq. apply Hy. rewrite <- Heq. now apply in_map.
  - inversion Hnd; subst. now apply IH.
Qed.

(** X1.  [aggregate_by_date] returns exactly one pair per distinct date
    of the rows, each with the amounts of that date added up from zero in
    the order of the rows, and the pairs stand by strictly ascending date;
    this holds of every list of rows, amounts that are not numbers
    included, since only the dates are compared. *)
Theorem aggregate_by_date_table rows :
  by_date_table rows (aggregate_by_date rows).
Proof.
  pose proof (AggregateFacts.aggregate_by_date_perm rows) as Hperm.
  split; [|split].
  - apply (Permutation_NoDup (Permutation_map fst (Permutation_sym Hperm))).
    apply (AccumulateFacts.accumulate_nodup PyDate.eqb
             AggregateFacts.date_eqb_spec).
  - intros d v.
    rewrite <- (AccumulateFacts.in_accumulate PyDate.eqb
                  AggregateFacts.date_eqb_spec).
    split; apply Permutation_in; [|apply Permutation_sym]; exact Hperm.
  - apply Sorted_StronglySorted.
    + intros a b c. apply ltb_trans.
    + apply SortFacts.sorted_Sorted. apply dates_agree.
      apply (AccumulateFacts.accumulate_nodup PyDate.eqb
               AggregateFacts.date_eqb_spec).
Qed.

(** The smallest and the largest element of a list of dates. *)
Lemma min_by_spec l : forall x,
  In (PyList.min_by PyDate.ltb x l) (x :: l)
  /\ forall y, In y (x :: l) ->
       PyDate.ltb y (PyList.min_by PyDate.ltb x l) = false.
Proof.
  unfold PyList.min_by.
  induction l as [|z l IH]; intro x; simpl.
  - split; [now left|]. intros y [<-|[]]. apply ltb_irrefl.
  - destruct (PyDate.ltb z x) eqn:E.
    + destruct (IH z) as [Hin Hmin]. split.
      * simpl in Hin. tauto.
      * intros y [<-|Hy]; [|now apply Hmin].
        apply not_ltb_trans with z; [apply Hmin; now left|].
        apply ltb_false. apply ltb_spec in E. lia.
    + destruct (IH x) as [Hin Hmin]. split.
      * simpl in Hin. tauto.
      * intros y [<-|[<-|Hy]].
        -- apply Hmin. now left.
        -- apply not_ltb_trans with x; [apply Hmin; now left|exact E].
        -- apply Hmin. now right.
Qed.

Lemma max_by_spec l : forall x,
  In (PyList.max_by PyDate.ltb x l) (x :: l)
  /\ forall y, In y (x :: l) ->
       PyDate.ltb (PyList.max_by PyDate.ltb x l) y = false.
Proof.
  unfold PyList.max_by.
  induction l as [|z l IH]; intro x; simpl.
  - split; [now left|]. intros y [<-|[]]. apply ltb_irrefl.
  - destruct (PyDate.ltb x z) eqn:E.
    + destruct (IH z) as [Hin Hmax]. split.
      * simpl in Hin. tauto.
      * intros y [<-|Hy]; [|now apply Hmax].
        apply not_ltb_trans with z; [|apply Hmax; now left].
        apply ltb_false. apply ltb_spec in E. lia.
    + destruct (IH x) as [Hin Hmax]. split.
      * simpl in Hin. tauto.
      * intros y [<-|[<-|Hy]].
        -- apply Hmax. now left.
        -- apply not_ltb_trans with x; [exact E|apply Hmax; now left].
        -- apply Hmax. now right.
Qed.

(** X2.  With at least one row, the date range is [lo..hi] for two dates
    of the rows such that no row is earlier than [lo] and none later than
    [hi], both printed as YYYY-MM-DD. *)
Theorem date_range_spans rows :
  rows <> [] ->
  exists lo hi,
    date_range rows = isoformat lo ++ ".." ++ isoformat hi
    /\ spans rows lo hi.
Proof.
  intro Hne. unfold date_range, spans.
  destruct rows as [|r rows]; [contradiction|]. simpl map.
  destruct (min_by_spec (map dt rows) (dt r)) as [Hlo Hmin].
  destruct (max_by_spec (map dt rows) (dt r)) as [Hhi Hmax].
  exists (PyList.min_by PyDate.ltb (dt r) (map dt rows)),
         (PyList.max_by PyDate.ltb (dt r) (map dt rows)).
  repeat split; trivial.
  - apply Hmin. change (In (dt r0) (map dt (r :: rows))). now apply in_map.
  - apply Hmax. change (In (dt r0) (map dt (r :: rows))). now apply in_map.
Qed.

Lemma date_range_spans_witness :
  june_rows <> []
  /\ exists lo hi,
       date_range june_rows = isoformat lo ++ ".." ++ isoformat hi
       /\ spans june_rows lo hi.
Proof.
  assert (H : june_rows <> []) by discriminate.
  split; [exact H|exact (date_range_spans june_rows H)].
Defined.

End DateFacts.

(** ** The limit on the by-SKU table *)

Module LimitFacts.

Import PyFloat SalesCli Spec Behaviour Examples.

Lemma strongly_sorted_app {A : Type} (R : A -> A -> Prop) l1 : forall l2,
  StronglySorted R (l1 ++ l2) ->
  forall a b, In a l1 -> In b l2 -> R a b.
Proof.
  induction l1 as [|x l1 IH]; intros l2 Hs a b Ha Hb; [contradiction|].
  simpl in Hs. inversion Hs as [|? ? Hs' Hall]; subst.
  destruct Ha as [<-|Ha].
  - rewrite Forall_forall in Hall. apply Hall. apply in_or_app. now right.
  - now apply (IH l2 Hs').
Qed.

Lemma table_length rows :
  (List.length (aggregate_by_sku rows) <= List.length rows)%nat.
Proof.
  destruct (AggregateFacts.aggregate_by_sku_pairs rows) as [Hnd Hin].
  rewrite <- (length_map fst (aggregate_by_sku rows)).
  rewrite <- (length_map sku rows).
  apply NoDup_incl_length; trivial.
  intros s Hs. apply in_map_iff in Hs. destruct Hs as ([s' v] & <- & Hsv).
  apply Hin in Hsv. apply Hsv.
Qed.

(** X3.  When no SKU has a total that is not a number, a limit [n >= 0]
    splits the by-SKU table into the pairs shown and the pairs left out,
    and every pair shown stands before every pair left out in the order of
    the table: a larger total, or the same total and a smaller SKU. *)
Theorem shown_pairs_come_first rows n :
  totals_are_numbers rows -> 0 <= n ->
  (truncate (Some n) (aggregate_by_sku rows)
     ++ skipn (Z.to_nat n) (aggregate_by_sku rows))%list
  = aggregate_by_sku rows
  /\ forall a b,
       In a (truncate (Some n) (aggregate_by_sku rows)) ->
       In b (skipn (Z.to_nat n) (aggregate_by_sku rows)) ->
       sku_order a b.
Proof.
  intros Hnum Hn. unfold truncate, PyList.take.
  rewrite (proj2 (Z.leb_le 0 n) Hn).
  split; [apply firstn_skipn|].
  apply strongly_sorted_app. rewrite firstn_skipn.
  now apply AggregateFacts.sorted_table_of_numbers.
Qed.

Lemma shown_pairs_come_first_witness :
  totals_are_numbers june_rows /\ 0 <= 1
  /\ forall a b,
       In a (truncate (Some 1) (aggregate_by_sku june_rows)) ->
       In b (skipn 1 (aggregate_by_sku june_rows)) ->
       sku_order a b.
Proof.
  assert (H : totals_are_numbers june_rows).
  { intros s Hs. simpl in Hs.
    repeat (destruct Hs as [<-|Hs]; [vm_compute; reflexivity|]).
    contradiction. }
  assert (H1 : 0 <= 1) by lia.
  split; [exact H|split; [exact H1|]].
  exact (proj2 (shown_pairs_come_first june_rows 1 H H1)).
Defined.

(** X4.  The by-SKU table never has more pairs than there are rows, and
    a limit that is at least the number of pairs gives the same block as
    no limit. *)
Theorem large_limit_is_no_limit rows by_date n :
  Z.of_nat (List.length (aggregate_by_sku rows)) <= n ->
  (List.length (aggregate_by_sku rows) <= List.length rows)%nat
  /\ _format_output rows (Some n) by_date = _format_output rows None by_date.
Proof.
  intro Hn. split; [apply table_length|].
  rewrite !FormatFacts.format_output_block. f_equal.
  unfold truncate, PyList.take.
  rewrite (proj2 (Z.leb_le 0 n)) by lia.
  apply firstn_all2. lia.
Qed.

Lemma large_limit_is_no_limit_witness :
  Z.of_nat (List.length (aggregate_by_sku june_rows)) <= 3
  /\ _format_output june_rows (Some 3) true
     = _format_output june_rows None true.
Proof.
  assert (H : Z.of_nat (List.length (aggregate_by_sku june_rows)) <= 3)
    by (vm_compute; discriminate).
  split; [exact H|exact (proj2 (large_limit_is_no_limit june_rows true 3 H))].
Defined.

End LimitFacts.

(** ** Trimming *)

Module StripFacts.

Section Facts.

Variable space : ascii -> bool.

Lemma rstrip_head c s :
  space c = false ->
  PyStr.rstrip_with space (String c s)
  = String c (PyStr.rstrip_with space s).
Proof.
  intro H. simpl. rewrite H.
  now destruct (PyStr.rstrip_with space s).
Qed.

Lemma rstrip_idem s :
  PyStr.rstrip_with space (PyStr.rstrip_with space s)
  = PyStr.rstrip_with space s.
Proof.
  induction s as [|c s IH]; simpl; trivial.
  destruct (PyStr.rstrip_with space s) as [|c' r] eqn:E.
  - destruct (space c) eqn:Hc; simpl; trivial. now rewrite Hc.
  - change (PyStr.rstrip_with space (String c (String c' r))
            = String c (String c' r)).
    simpl. simpl in IH. now rewrite IH.
Qed.

Lemma lstrip_head s :
  PyStr.lstrip_with space s = EmptyString
  \/ exists c t, PyStr.lstrip_with space s = String c t /\ space c = false.
Proof.
  induction s as [|c s IH]; simpl; [now left|].
  destruct (space c) eqn:Hc; trivial. right. now exists c, s.
Qed.

Lemma lstrip_fixed c t :
  space c = false -> PyStr.lstrip_with space (String c t) = String c t.
Proof. intro H. simpl. now rewrite H. Qed.

(** Trimming a trimmed string changes nothing. *)
Lemma strip_idem s :
  PyStr.strip_with space (PyStr.strip_with space s)
  = PyStr.strip_with space s.
Proof.
  unfold PyStr.strip_with.
  destruct (lstrip_head s) as [E|(c & t & E & Hc)]; rewrite E.
  - reflexivity.
  - rewrite (rstrip_head c t Hc), (lstrip_fixed c _ Hc).
    rewrite <- (rstrip_head c t Hc). apply rstrip_idem.
Qed.

End Facts.

End StripFacts.

(** ** The rows [parse_rows] returns *)

Module RowsFacts.

Import PyFloat SalesCli Spec Behaviour Examples.

Section Facts.

Variable fromisoformat : string -> option PyDate.date.

(** An accepted record passed the three checks, and its row holds the
    trimmed SKU, the date and the float read from its fields. *)
Lemma parse_line_accepted i raw r :
  parse_line fromisoformat i raw = inr r ->
  sku_field raw <> EmptyString
  /\ sku r = sku_field raw
  /\ fromisoformat (date_field raw) = Some (dt r)
  /\ float_of_string (amount_field raw) = Some (amount r).
Proof.
  unfold parse_line.
  fold (sku_field raw) (date_field raw) (amount_field raw).
  destruct (PyStr.is_empty (sku_field raw)) eqn:E; [discriminate|].
  destruct (fromisoformat (date_field raw)) as [d|]; [|discriminate].
  destruct (float_of_string (amount_field raw)) as [x|]; [|discriminate].
  intro H. inversion H; subst. simpl. repeat split; trivial.
  intro H0. rewrite H0 in E. discriminate.
Qed.

Lemma yielded_dict_rows fieldnames it :
  yielded (Csv.dict_rows fieldnames it)
  = map (fun r => Csv.make_dict fieldnames (Csv.cells r))
        (filter (fun r => negb (Csv.is_blank_row r)) (yielded it)).
Proof.
  induction it as [|e|r rest IH]; simpl; trivial.
  destruct (Csv.is_blank_row r); simpl; now rewrite IH.
Qed.

Lemma ends_well_dict_rows fieldnames it :
  ends_well (Csv.dict_rows fieldnames it) -> ends_well it.
Proof.
  induction it as [|e|r rest IH]; simpl; trivial.
  destruct (Csv.is_blank_row r); simpl; trivial.
Qed.

(** A loop that returns has seen its iterator end, and has appended one
    row for each record, in order. *)
Lemma parse_loop_returns it : forall i acc rows,
  parse_loop fromisoformat i it acc = inr rows ->
  ends_well it
  /\ exists rows',
       rows = (acc ++ rows')%list
       /\ List.length rows' = List.length (yielded it)
       /\ forall k raw r,
            nth_error (yielded it) k = Some raw ->
            nth_error rows' k = Some r ->
            parse_line fromisoformat (i + Z.of_nat k) raw = inr r.
Proof.
  induction it as [|e|raw0 rest IH]; intros i acc rows H; simpl in H.
  - inversion H; subst. split; [exact I|]. exists []. simpl.
    split; [now rewrite app_nil_r|split; [reflexivity|]].
    intros [|k] raw r Hk; discriminate.
  - discriminate.
  - destruct (parse_line fromisoformat i raw0) as [e|r0] eqn:E;
      [discriminate|].
    destruct (IH _ _ _ H) as (Hend & rows' & Hrows & Hlen & Hnth).
    split; [exact Hend|]. exists (r0 :: rows'). simpl.
    split; [now rewrite Hrows, <- app_assoc|split; [now rewrite Hlen|]].
    intros [|k] raw r Hk Hr; simpl in Hk, Hr.
    + inversion Hk; inversion Hr; subst. now rewrite Z.add_0_r.
    + replace (i + Z.of_nat (S k)) with (i + 1 + Z.of_nat k) by lia.
      now apply Hnth.
Qed.

(** What a successful [parse_rows] on a file that is not empty went
    through. *)
Lemma parse_rows_returns path text rows :
  text <> EmptyString ->
  parse_rows fromisoformat path (Some text) = inr rows ->
  exists h rest,
    Csv.reader text = Next h rest
    /\ missing_columns (Csv.cells h) = []
    /\ parse_loop fromisoformat 2 (Csv.dict_rows (Csv.cells h) rest) []
       = inr rows.
Proof.
  intros Hne H. unfold parse_rows in H.
  destruct (PyStr.is_empty text) eqn:E.
  - destruct text; [contradiction|discriminate].
  - destruct (Csv.reader text) as [|e|h rest]; try discriminate.
    exists h, rest. split; [reflexivity|].
    destruct (missing_columns (Csv.cells h)); [|discriminate]. auto.
Qed.

(** X5.  When [parse_rows] returns the rows of a file that is not empty,
    the reader came to the end of the file without raising, the header has
    the required columns, and there is exactly one row for each record
    after the header that is not blank, in the order of the file: row [k]
    is what the [k]-th such record parses to, numbered [2 + k]. *)
Theorem rows_follow_the_records path text rows :
  text <> EmptyString ->
  parse_rows fromisoformat path (Some text) = inr rows ->
  exists h rest,
    Csv.reader text = Next h rest
    /\ ends_well rest
    /\ missing_columns (Csv.cells h) = []
    /\ List.length rows = List.length (data_records h rest)
    /\ forall k raw r,
         nth_error (data_records h rest) k = Some raw ->
         nth_error rows k = Some r ->
         parse_line fromisoformat (2 + Z.of_nat k) raw = inr r.
Proof.
  intros Hne H.
  destruct (parse_rows_returns path text rows Hne H)
    as (h & rest & Hreader & Hmissing & Hloop).
  destruct (parse_loop_returns _ _ _ _ Hloop)
    as (Hend & rows' & Hrows & Hlen & Hnth).
  simpl in Hrows. subst rows'.
  exists h, rest. unfold data_records. rewrite <- yielded_dict_rows.
  repeat split; trivial.
  now apply ends_well_dict_rows in Hend.
Qed.

(** X6.  Every row [parse_rows] returns has a SKU that is not empty and
    has no white space at either end, a date that is what
    [date.fromisoformat] reads from some string, and an amount that is
    what [float] reads from some string. *)
Theorem rows_are_validated path file rows r :
  parse_rows fromisoformat path file = inr rows ->
  In r rows ->
  sku r <> EmptyString
  /\ trimmed (sku r)
  /\ (exists s, fromisoformat s = Some (dt r))
  /\ (exists s, float_of_string s = Some (amount r)).
Proof.
  intros H Hin.
  assert (Hraw : exists i raw, parse_line fromisoformat i raw = inr r).
  { destruct file as [text|]; [|discriminate].
    destruct text as [|c text]; [inversion H; subst; contradiction|].
    assert (Hne : String c text <> EmptyString) by discriminate.
    destruct (parse_rows_returns path _ rows Hne H)
      as (h & rest & _ & _ & Hloop).
    destruct (parse_loop_returns _ _ _ _ Hloop)
      as (_ & rows' & Hrows & Hlen & Hnth).
    simpl in Hrows. subst rows'.
    destruct (In_nth_error _ _ Hin) as [k Hk].
    destruct (nth_error (yielded (Csv.dict_rows (Csv.cells h) rest)) k)
      as [raw|] eqn:Eraw.
    - exists (2 + Z.of_nat k), raw. now apply Hnth.
    - apply nth_error_None in Eraw.
      assert (k < List.length rows)%nat
        by (apply nth_error_Some; congruence).
      lia. }
  destruct Hraw as (i & raw & Hline).
  destruct (parse_line_accepted i raw r Hline) as (Hne & Hsku & Hd & Ha).
  rewrite Hsku. repeat split; trivial.
  - unfold trimmed, sku_field, PyStr.strip. apply StripFacts.strip_idem.
  - now exists (date_field raw).
  - now exists (amount_field raw).
Qed.

End Facts.

Lemma rows_follow_the_records_witness :
  june_csv <> EmptyString
  /\ parse_rows PyDate.fromisoformat "sales.csv" (Some june_csv)
     = inr june_rows
  /\ exists h rest,
       Csv.reader june_csv = Next h rest
       /\ ends_well rest
       /\ missing_columns (Csv.cells h) = []
       /\ List.length june_rows = List.length (data_records h rest)
       /\ forall k raw r,
            nth_error (data_records h rest) k = Some raw ->
            nth_error june_rows k = Some r ->
            parse_line PyDate.fromisoformat (2 + Z.of_nat k) raw = inr r.
Proof.
  assert (H1 : june_csv <> EmptyString) by discriminate.
  assert (H2 : parse_rows PyDate.fromisoformat "sales.csv" (Some june_csv)
               = inr june_rows) by (vm_compute; reflexivity).
  split; [exact H1|split; [exact H2|]].
  exact (rows_follow_the_records PyDate.fromisoformat "sales.csv" june_csv
           june_rows H1 H2).
Defined.

Lemma rows_are_validated_witness :
  parse_rows PyDate.fromisoformat "sales.csv" (Some june_csv) = inr june_rows
  /\ In (mkRow (PyDate.mkdate 2024 6 2) "BBB" (lit "5.5")) june_rows
  /\ trimmed "BBB".
Proof.
  assert (H1 : parse_rows PyDate.fromisoformat "sales.csv" (Some june_csv)
               = inr june_rows) by (vm_compute; reflexivity).
  assert (H2 : In (mkRow (PyDate.mkdate 2024 6 2) "BBB" (lit "5.5"))
                  june_rows) by (right; left; reflexivity).
  split; [exact H1|split; [exact H2|]].
  exact (proj1 (proj2 (rows_are_validated PyDate.fromisoformat "sales.csv"
                         (Some june_csv) june_rows _ H1 H2))).
Defined.

End RowsFacts.

(** ** Records as dictionaries *)

Module RecordFacts.

Import PyFloat SalesCli Spec Behaviour Examples.

Lemma fold_set_absent {X : Type} (kf : X -> string)
    (vf : X -> option string) l : forall d k,
  ~ In k (map kf l) ->
  PyDict.get String.eqb
    (fold_left (fun d x => PyDict.set String.eqb d (kf x) (vf x)) l d) k None
  = PyDict.get String.eqb d k None.
Proof.
  induction l as [|x l IH]; intros d k Hk; simpl; trivial.
  rewrite IH by (intro; apply Hk; now right).
  rewrite (DictFacts.get_set String.eqb String.eqb_eq).
  destruct (String.eqb (kf x) k) eqn:E; trivial.
  apply String.eqb_eq in E. elim Hk. now left.
Qed.

Lemma fold_set_none keys : forall d k,
  In k keys \/ PyDict.get String.eqb d k None = None ->
  PyDict.get String.eqb
    (fold_left (fun d k' => PyDict.set String.eqb d k' (@None string)) keys d)
    k None
  = None.
Proof.
  induction keys as [|k0 keys IH]; intros d k H; simpl.
  - destruct H as [[]|H]. exact H.
  - apply IH. rewrite (DictFacts.get_set String.eqb String.eqb_eq).
    destruct (String.eqb k0 k) eqn:E; [now right|].
    destruct H as [[->|H]|H]; auto.
    now rewrite String.eqb_refl in E.
Qed.

(** The dictionary of a record gives, under the name at place [j] of a
    header without repeated names, the cell at place [j] of the record,
    and [None] when the record is too short. *)
Lemma make_dict_from fieldnames : forall cells d j k,
  NoDup fieldnames ->
  nth_error fieldnames j = Some k ->
  PyDict.get String.eqb
    (fold_left (fun d k' => PyDict.set String.eqb d k' (@None string))
       (skipn (List.length cells) fieldnames)
       (fold_left
          (fun d kv => PyDict.set String.eqb d (fst kv) (Some (snd kv)))
          (combine fieldnames cells) d))
    k None
  = nth_error cells j.
Proof.
  induction fieldnames as [|f fs IH]; intros cells d j k Hnd Hj.
  - destruct j; discriminate.
  - inversion Hnd as [|? ? Hf Hnd']; subst.
    destruct cells as [|c cs].
    + simpl combine. simpl fold_left at 2. simpl skipn.
      rewrite fold_set_none.
      * now destruct j.
      * left. now apply nth_error_In with j.
    + simpl. destruct j as [|j]; simpl in *.
      * inversion Hj; subst.
        rewrite (fold_set_absent (fun k' => k') (fun _ => @None string)).
        -- rewrite (fold_set_absent fst (fun kv => Some (snd kv))).
           ++ rewrite (DictFacts.get_set String.eqb String.eqb_eq).
              now rewrite String.eqb_refl.
           ++ intro H. apply in_map_iff in H.
              destruct H as ([k' c'] & <- & H). apply in_combine_l in H.
              contradiction.
        -- rewrite map_id. intro H. apply Hf.
           rewrite <- (firstn_skipn (List.length cs) fs).
           apply in_or_app. now right.
      * now apply IH.
Qed.

Lemma make_dict_lookup fieldnames cells j k :
  NoDup fieldnames ->
  nth_error fieldnames j = Some k ->
  Csv.get (Csv.make_dict fieldnames cells) k = nth_error cells j.
Proof. intros. now apply make_dict_from. Qed.

Lemma make_dict_absent fieldnames cells k :
  ~ In k fieldnames ->
  Csv.get (Csv.make_dict fieldnames cells) k = None.
Proof.
  intro Hk. unfold Csv.get, Csv.make_dict.
  rewrite (fold_set_absent (fun k' => k') (fun _ => @None string)).
  - rewrite (fold_set_absent fst (fun kv => Some (snd kv))); trivial.
    intro H. apply in_map_iff in H.
    destruct H as ([k' c'] & <- & H). apply in_combine_l in H.
    contradiction.
  - rewrite map_id. intro H. apply Hk.
    rewrite <- (firstn_skipn (List.length cells) fieldnames).
    apply in_or_app. now right.
Qed.

Section Facts.

Variable fromisoformat : string -> option PyDate.date.

(** X7.  Under a header without repeated names, a record is read by the
    names of the columns, wherever they stand: the date, the SKU and the
    amount are the trimmed cells at the places of [date], [sku] and
    [amount] in the header, the empty string when the record is too short
    to have that cell; the other cells are not looked at. *)
Theorem fields_are_read_by_name fieldnames cells jd js ja :
  NoDup fieldnames ->
  nth_error fieldnames jd = Some "date" ->
  nth_error fieldnames js = Some "sku" ->
  nth_error fieldnames ja = Some "amount" ->
  date_field (Csv.make_dict fieldnames cells) = cell cells jd
  /\ sku_field (Csv.make_dict fieldnames cells) = cell cells js
  /\ amount_field (Csv.make_dict fieldnames cells) = cell cells ja.
Proof.
  intros Hnd Hd Hs Ha. unfold date_field, sku_field, amount_field, cell.
  now rewrite (make_dict_lookup _ cells _ _ Hnd Hd),
    (make_dict_lookup _ cells _ _ Hnd Hs),
    (make_dict_lookup _ cells _ _ Hnd Ha).
Qed.

(** X8.  The check of the header trims the names, the records are read
    under the names as written: when no column is named exactly [sku],
    every record is refused for an empty SKU, whatever its cells, even
    if the header passed the check thanks to the trimming. *)
Theorem untrimmed_sku_column_refuses_all fieldnames cells i :
  ~ In "sku" fieldnames ->
  parse_line fromisoformat i (Csv.make_dict fieldnames cells)
  = inl (InputError ("line " ++ str_int i ++ ": sku must be non-empty")).
Proof.
  intro H. unfold parse_line.
  now rewrite (make_dict_absent fieldnames cells "sku" H).
Qed.

(** X9.  A header that lacks required columns, once its names are
    trimmed, makes [parse_rows] raise the input error that lists the
    lacking columns in alphabetical order, separated by a comma and a
    space; the records after the header are not read. *)
Theorem missing_columns_are_listed path text h rest :
  Csv.reader text = Next h rest ->
  absent_columns (Csv.cells h) <> [] ->
  parse_rows fromisoformat path (Some text)
  = inl (InputError ("missing required columns: "
                       ++ PyStr.join ", " (absent_columns (Csv.cells h)))).
Proof.
  intros Hreader Habsent. unfold parse_rows.
  destruct text as [|c text]; [discriminate|]. simpl PyStr.is_empty.
  rewrite Hreader. revert Habsent.
  unfold missing_columns, absent_columns, REQUIRED_COLUMNS. cbn [filter].
  destruct (existsb (String.eqb "date") (map PyStr.strip (Csv.cells h)));
    destruct (existsb (String.eqb "sku") (map PyStr.strip (Csv.cells h)));
    destruct (existsb (String.eqb "amount") (map PyStr.strip (Csv.cells h)));
    cbn [negb]; intro Habsent; try reflexivity.
  now elim Habsent.
Qed.

End Facts.

Lemma fields_are_read_by_name_witness :
  NoDup shuffled_header
  /\ nth_error shuffled_header 3 = Some "date"
  /\ nth_error shuffled_header 0 = Some "sku"
  /\ nth_error shuffled_header 2 = Some "amount"
  /\ sku_field (Csv.make_dict shuffled_header [" AAA "; "first sale"])
     = "AAA"
  /\ amount_field (Csv.make_dict shuffled_header [" AAA "; "first sale"])
     = EmptyString.
Proof.
  assert (H0 : NoDup shuffled_header).
  { unfold shuffled_header.
    repeat (constructor; [simpl; intuition discriminate|]). constructor. }
  assert (H1 : nth_error shuffled_header 3 = Some "date") by reflexivity.
  assert (H2 : nth_error shuffled_header 0 = Some "sku") by reflexivity.
  assert (H3 : nth_error shuffled_header 2 = Some "amount") by reflexivity.
  split; [exact H0|split; [exact H1|split; [exact H2|split; [exact H3|]]]].
  exact (proj2 (fields_are_read_by_name shuffled_header
                  [" AAA "; "first sale"] 3 0 2 H0 H1 H2 H3)).
Defined.

Lemma untrimmed_sku_column_refuses_all_witness :
  ~ In "sku" [" sku "; "date"; "amount"]
  /\ missing_columns [" sku "; "date"; "amount"] = []
  /\ parse_line PyDate.fromisoformat 2
       (Csv.make_dict [" sku "; "date"; "amount"]
          ["AAA"; "2024-06-01"; "10.0"])
     = inl (InputError "line 2: sku must be non-empty")
  /\ parse_rows PyDate.fromisoformat "sales.csv" (Some padded_header_csv)
     = inl (InputError "line 2: sku must be non-empty").
Proof.
  assert (H : ~ In "sku" [" sku "; "date"; "amount"])
    by (simpl; intuition discriminate).
  split; [exact H|split; [reflexivity|split]].
  - exact (untrimmed_sku_column_refuses_all PyDate.fromisoformat
             [" sku "; "date"; "amount"] ["AAA"; "2024-06-01"; "10.0"] 2 H).
  - vm_compute. reflexivity.
Defined.

Lemma missing_columns_are_listed_witness :
  Csv.reader ("sku,note" ++ LF ++ "AAA,first")
    = Next (Csv.mkrow 1 ["sku"; "note"])
        (Next (Csv.mkrow 2 ["AAA"; "first"]) StopIteration)
  /\ absent_columns ["sku"; "note"] <> []
  /\ parse_rows PyDate.fromisoformat "sales.csv"
       (Some ("sku,note" ++ LF ++ "AAA,first"))
     = inl (InputError "missing required columns: amount, date").
Proof.
  assert (H1 : Csv.reader ("sku,note" ++ LF ++ "AAA,first")
               = Next (Csv.mkrow 1 ["sku"; "note"])
                   (Next (Csv.mkrow 2 ["AAA"; "first"]) StopIteration))
    by (vm_compute; reflexivity).
  assert (H2 : absent_columns ["sku"; "note"] <> [])
    by (vm_compute; discriminate).
  split; [exact H1|split; [exact H2|]].
  exact (missing_columns_are_listed PyDate.fromisoformat "sales.csv"
           ("sku,note" ++ LF ++ "AAA,first") _ _ H1 H2).
Defined.

End RecordFacts.

(** ** Runs of the entry point *)

Module RunFacts.

Import PyFloat SalesCli Spec Behaviour Examples.

Section Facts.

Variable fromisoformat : string -> option PyDate.date.

(** X10.  A run of [main] that returns ends in one of two ways.  Either
    [parse_rows] raised an input error: the status is 2, the error is
    printed after [error: ] on the error stream, nothing is printed on the
    output and no file is written; a file that does not exist is such a
    case.  Or [parse_rows] returned rows: the status is 0, nothing is
    printed on the error stream, the block of the rows is printed, and a
    file is written exactly when an export path that is not empty was
    given. *)
Theorem main_ends_in_one_of_two_ways ns file :
  main fromisoformat ns None
  = inr (mkRun 2 EmptyString
           ("error: file not found: " ++ csv_path ns ++ LF) None)
  /\ forall run,
       main fromisoformat ns file = inr run ->
       (status run = 2 /\ stdout run = EmptyString /\ written run = None
        /\ exists e,
             parse_rows fromisoformat (csv_path ns) file = inl (InputError e)
             /\ stderr run = "error: " ++ e ++ LF)
       \/ (status run = 0 /\ stderr run = EmptyString
           /\ (written run = None
               <-> out ns = None \/ out ns = Some EmptyString)
           /\ exists rows,
                parse_rows fromisoformat (csv_path ns) file = inr rows
                /\ stdout run
                   = _format_output rows (top ns) (by_date ns) ++ LF).
Proof.
  split; [reflexivity|].
  intros run H. unfold main in H.
  destruct (parse_rows fromisoformat (csv_path ns) file) as [[e|e]|rows].
  - left. inversion H; subst. simpl. repeat split. now exists e.
  - discriminate.
  - right. inversion H; subst. simpl. split; [reflexivity|].
    split; [reflexivity|]. split.
    + destruct (out ns) as [[|c p]|]; simpl; split; auto;
        try discriminate.
      intros [H0|H0]; discriminate.
    + exists rows. split; [reflexivity|].
      rewrite !FormatFacts.format_output_block.
      now rewrite FormatFacts.truncate_top_n.
Qed.

(** What [main] exports starts with the header of the export, which has
    no date column. *)
Lemma export_lacks_the_date path by_sku :
  parse_rows fromisoformat path (Some (Csv.writerows (export_rows by_sku)))
  = inl (InputError "missing required columns: date").
Proof.
  unfold export_rows. rewrite MainFacts.writerows_cons.
  generalize (Csv.writerows
                (map (fun kv : string * float => [fst kv; format_2f (snd kv)])
                   by_sku)).
  intro t. reflexivity.
Qed.

(** X11.  The file [main] exports cannot be given back to [main] as its
    input: whatever was exported, the second run refuses it for the
    missing date column and returns 2. *)
Theorem export_is_refused_as_input ns file run path exported text ns' :
  main fromisoformat ns file = inr run ->
  written run = Some (path, exported, text) ->
  main fromisoformat ns' (Some text)
  = inr (mkRun 2 EmptyString
           ("error: missing required columns: date" ++ LF) None).
Proof.
  intros H Hw. unfold main in H.
  destruct (parse_rows fromisoformat (csv_path ns) file) as [[e|e]|rows].
  - inversion H; subst. discriminate.
  - discriminate.
  - inversion H; subst. simpl in Hw.
    destruct (out ns) as [p|]; [|discriminate].
    destruct (PyStr.is_empty p); [discriminate|].
    inversion Hw; subst.
    apply MainFacts.main_input_error. apply export_lacks_the_date.
Qed.

End Facts.

Lemma main_ends_in_one_of_two_ways_witness :
  main PyDate.fromisoformat export_ns (Some bad_amount_csv)
  = inr (mkRun 2 EmptyString
           ("error: line 2: invalid amount 'ten'" ++ LF) None)
  /\ exists e,
       parse_rows PyDate.fromisoformat (csv_path export_ns)
         (Some bad_amount_csv) = inl (InputError e).
Proof.
  assert (H : main PyDate.fromisoformat export_ns (Some bad_amount_csv)
              = inr (mkRun 2 EmptyString
                       ("error: line 2: invalid amount 'ten'" ++ LF) None))
    by (vm_compute; reflexivity).
  split; [exact H|].
  destruct (proj2 (main_ends_in_one_of_two_ways PyDate.fromisoformat
                     export_ns (Some bad_amount_csv)) _ H)
    as [(_ & _ & _ & e & He & _)|(H0 & _)].
  - exists e. exact He.
  - discriminate H0.
Defined.

Lemma export_is_refused_as_input_witness :
  main PyDate.fromisoformat export_ns (Some june_csv) = inr june_export_run
  /\ written june_export_run
     = Some ("out.csv", export_rows (export_pairs export_ns june_rows),
             Csv.writerows (export_rows (export_pairs export_ns june_rows)))
  /\ main PyDate.fromisoformat export_ns
       (Some (Csv.writerows (export_rows (export_pairs export_ns june_rows))))
     = inr (mkRun 2 EmptyString
              ("error: missing required columns: date" ++ LF) None).
Proof.
  assert (H : main PyDate.fromisoformat export_ns (Some june_csv)
              = inr june_export_run) by (vm_compute; reflexivity).
  assert (Hw : written june_export_run
               = Some ("out.csv",
                       export_rows (export_pairs export_ns june_rows),
                       Csv.writerows
                         (export_rows (export_pairs export_ns june_rows))))
    by reflexivity.
  split; [exact H|split; [exact Hw|]].
  exact (export_is_refused_as_input PyDate.fromisoformat export_ns
           (Some june_csv) june_export_run _ _ _ export_ns H Hw).
Defined.

End RunFacts.

(** ** More on the arithmetic helpers *)

Module ArithFacts.

Import PyFloat MathUtils Examples.

(** X12.  [add] does not depend on the order of its arguments. *)
Theorem add_commutes a b : add a b = add b a.
Proof.
  unfold add, PyFloat.add.
  destruct a as [sa|sa| |sa ma ea], b as [sb|sb| |sb mb eb];
    try destruct sa; try destruct sb; try reflexivity;
    cbn [SFadd]; rewrite (Z.min_comm eb ea); rewrite Z.add_comm;
    reflexivity.
Qed.

(** X13.  A divisor that is not a number, or is infinite, does not make
    [divide] raise: with a divisor that is not a number the quotient is
    not a number, and a finite dividend over an infinite divisor gives a
    zero; a dividend that is not a number gives a quotient that is not a
    number whenever the divisor is not a zero. *)
Theorem divide_edges a b :
  (is_nan b = true -> divide a b = inr PyFloat.nan)
  /\ (is_nan a = true -> (forall s, b <> S754_zero s) ->
      divide a b = inr PyFloat.nan)
  /\ (is_finite a = true -> forall s,
        exists s', divide a (S754_infinity s) = inr (S754_zero s')).
Proof.
  split; [|split].
  - destruct b; try discriminate. intros _. now destruct a.
  - destruct a; try discriminate. intros _ Hb.
    destruct b as [sb|sb| |sb mb eb]; try destruct sb; trivial;
      now elim (Hb _ eq_refl).
  - destruct a as [sa|sa| |sa ma ea]; try discriminate; intros _ s;
      destruct s; eexists; reflexivity.
Qed.

Lemma divide_edges_witness :
  is_nan PyFloat.nan = true
  /\ divide (lit "1") PyFloat.nan = inr PyFloat.nan.
Proof.
  assert (H : is_nan PyFloat.nan = true) by reflexivity.
  split; [exact H|exact (proj1 (divide_edges (lit "1") PyFloat.nan) H)].
Defined.

Lemma div_eucl_mul m : Z.div_eucl (Zpos m * 2 ^ 53) (Zpos m) = (2 ^ 53, 0).
Proof.
  pose proof (Z.div_mul (2 ^ 53) (Zpos m) ltac:(lia)) as Hq.
  pose proof (Z.mod_mul (2 ^ 53) (Zpos m) ltac:(lia)) as Hr.
  rewrite (Z.mul_comm (2 ^ 53)) in Hq, Hr.
  unfold Z.div, Z.modulo in Hq, Hr.
  destruct (Z.div_eucl (Zpos m * 2 ^ 53) (Zpos m)) as [q r].
  simpl in Hq, Hr. now subst.
Qed.

(** X14.  A finite number that is not a zero, divided by itself, gives
    exactly one. *)
Theorem divide_by_itself s m e :
  divide (S754_finite s m e) (S754_finite s m e) = inr (lit "1").
Proof.
  unfold divide.
  replace (PyFloat.eqb (S754_finite s m e) PyFloat.zero) with false
    by (now destruct s).
  f_equal. unfold PyFloat.div. cbn [SFdiv]. unfold SFdiv_core_binary.
  rewrite Z.sub_diag.
  replace (Zdigits2 (Zpos m) + e - (Zdigits2 (Zpos m) + e)) with 0 by lia.
  change (Z.min (fexp prec emax 0) 0) with (-53).
  change (0 - -53) with 53.
  rewrite Z.shiftl_mul_pow2 by lia. rewrite div_eucl_mul.
  replace (new_location (Zpos m) 0) with loc_Exact
    by (unfold new_location, new_location_even, new_location_odd;
        now destruct (Z.even (Zpos m))).
  now destruct s.
Qed.

End ArithFacts.

(** ** Where parsing stops *)

Module StopFacts.

Import PyFloat SalesCli Spec Behaviour Examples.

Section Facts.

Variable fromisoformat : string -> option PyDate.date.

Lemma parse_line_by_checks i raw :
  match failing_checks fromisoformat raw with
  | c :: _ =>
      parse_line fromisoformat i raw = inl (InputError (message i raw c))
  | [] => exists r, parse_line fromisoformat i raw = inr r
  end.
Proof.
  unfold failing_checks, parse_line. simpl.
  fold (sku_field raw) (date_field raw) (amount_field raw).
  destruct (PyStr.is_empty (sku_field raw)); [reflexivity|].
  destruct (fromisoformat (date_field raw)); [|reflexivity].
  destruct (float_of_string (amount_field raw)); [|reflexivity].
  eexists. reflexivity.
Qed.

(** X15.  Under a header with the required columns, [parse_rows] stops
    at the first record that fails a check and raises the error of the
    first check that record fails, under the number [2 + k] when [k]
    records that are not blank stand between it and the header; what
    comes after that record in the file is not looked at, and no row is
    returned. *)
Theorem first_bad_record_is_reported path text h rest k raw c cs :
  Csv.reader text = Next h rest ->
  missing_columns (Csv.cells h) = [] ->
  nth_error (data_records h rest) k = Some raw ->
  (forall j raw', (j < k)%nat ->
     nth_error (data_records h rest) j = Some raw' ->
     failing_checks fromisoformat raw' = []) ->
  failing_checks fromisoformat raw = c :: cs ->
  parse_rows fromisoformat path (Some text)
  = inl (InputError (message (2 + Z.of_nat k) raw c)).
Proof.
  intros Hreader Hmissing Hk Hbefore Hfails. unfold parse_rows.
  destruct text as [|ch text]; [discriminate|]. simpl PyStr.is_empty.
  rewrite Hreader, Hmissing.
  unfold data_records in Hk, Hbefore.
  rewrite <- RowsFacts.yielded_dict_rows in Hk, Hbefore.
  apply (MainFacts.parse_loop_first_error fromisoformat _ 2 [] k raw); trivial.
  - intros j raw' Hj Hnth.
    pose proof (parse_line_by_checks (2 + Z.of_nat j) raw') as H.
    now rewrite (Hbefore j raw' Hj Hnth) in H.
  - pose proof (parse_line_by_checks (2 + Z.of_nat k) raw) as H.
    now rewrite Hfails in H.
Qed.

(** X16.  A file that starts with a line break has an empty first
    record for header: [parse_rows] refuses it for the three missing
    columns, whatever follows. *)
Theorem blank_first_line_is_refused path c text :
  Csv.is_nl c = true ->
  parse_rows fromisoformat path (Some (String c text))
  = inl (InputError "missing required columns: amount, date, sku").
Proof.
  intro H. unfold Csv.is_nl in H. apply orb_true_iff in H.
  destruct H as [H|H]; apply Ascii.eqb_eq in H; subst c.
  - reflexivity.
  - destruct text as [|c2 text]; [reflexivity|].
    unfold parse_rows, Csv.reader. simpl PyStr.is_empty.
    cbn [Csv.readlines Csv.is_lf Csv.is_cr Ascii.eqb Bool.eqb].
    destruct (Csv.is_lf c2) eqn:E.
    + apply Ascii.eqb_eq in E. subst c2. reflexivity.
    + unfold Csv.is_lf in E.
      cbn [Csv.readlines Csv.is_lf Csv.is_cr Ascii.eqb Bool.eqb].
      try rewrite E. reflexivity.
Qed.

End Facts.

Lemma first_bad_record_is_reported_witness :
  Csv.reader blank_line_csv
    = Next (Csv.mkrow 1 ["date"; "sku"; "amount"])
        (Next (Csv.mkrow 2 [])
           (Next (Csv.mkrow 3 ["2024-01-01"; "AAA"; "ten"]) StopIteration))
  /\ parse_rows PyDate.fromisoformat "sales.csv" (Some blank_line_csv)
     = inl (InputError "line 2: invalid amount 'ten'").
Proof.
  assert (H1 : Csv.reader blank_line_csv
               = Next (Csv.mkrow 1 ["date"; "sku"; "amount"])
                   (Next (Csv.mkrow 2 [])
                      (Next (Csv.mkrow 3 ["2024-01-01"; "AAA"; "ten"])
                         StopIteration)))
    by (vm_compute; reflexivity).
  split; [exact H1|].
  refine (first_bad_record_is_reported PyDate.fromisoformat "sales.csv"
            blank_line_csv _ _ 0
            (Csv.make_dict ["date"; "sku"; "amount"]
               ["2024-01-01"; "AAA"; "ten"])
            CheckAmount [] H1 _ _ _ _).
  - reflexivity.
  - reflexivity.
  - intros j raw' Hj. lia.
  - reflexivity.
Defined.

Lemma blank_first_line_is_refused_witness :
  Csv.is_nl "010" = true
  /\ parse_rows PyDate.fromisoformat "sales.csv"
       (Some (LF ++ "date,sku,amount"))
     = inl (InputError "missing required columns: amount, date, sku").
Proof.
  assert (H : Csv.is_nl "010" = true) by reflexivity.
  split; [exact H|].
  exact (blank_first_line_is_refused PyDate.fromisoformat "sales.csv"
           "010" "date,sku,amount" H).
Defined.

End StopFacts.

(** ** Grouping without conditions *)

Module GroupFacts.

Import PyFloat SalesCli Spec Behaviour Examples.

(** X17.  Whatever the amounts, numbers or not, [aggregate_by_sku]
    returns exactly one pair per distinct SKU of the rows, each with the
    amounts of that SKU added up from zero in the order of the rows, and
    its result is a rearrangement of the totals in the order in which the
    SKUs first occur. *)
Theorem by_sku_groups_every_input rows :
  one_pair_per_sku rows (aggregate_by_sku rows)
  /\ Permutation (aggregate_by_sku rows) (accumulate String.eqb sku rows)
  /\ represents String.eqb sku (accumulate String.eqb sku rows) rows.
Proof.
  split; [apply AggregateFacts.aggregate_by_sku_pairs|split].
  - apply AggregateFacts.aggregate_by_sku_perm.
  - apply (AccumulateFacts.represents_accumulate String.eqb
             AggregateFacts.string_eqb_spec).
Qed.

End GroupFacts.
